(** * Library management system: the catalog model of [library.py]

    A shallow embedding of [Book] and [Library], and of the parts of the
    Python runtime they call: [int], [str], [str.strip], [str.lower], [in],
    the [csv] module with its default dialect, [random.randint] and
    [datetime].

    Conventions of the model.
    - A Python [str] is a list of code points below 256 ([pystr]).
    - A Python [int] is a [Z].
    - An exception that a function lets escape is a value of [exn], on the
      left of a sum; what a method prints is the [report] it returns.
    - The file [library_data.txt] is an [option pystr], [None] when the file
      does not exist.  Text written is text read back: the codec of the
      locale encodes every character.
    - The interpreter is CPython 3.11 or later with its settings as it
      starts: [csv.field_size_limit()] is 131072 and [int] reads 4300 digits
      at most.
    - A [datetime] is a number of microseconds on the local time line. *)

From Stdlib Require Import ZArith Ascii String.
From stdpp Require Import base option list gmap strings.

Local Open Scope Z_scope.

(** ** Python values *)

Definition pystr : Type := list ascii.

Definition lit (s : string) : pystr := list_ascii_of_string s.

Definition code (c : ascii) : Z := Z.of_N (N_of_ascii c).

Definition chr (n : Z) : ascii := ascii_of_N (Z.to_N n).

Inductive pyval : Type :=
| PyNone
| PyStr (s : pystr)
| PyInt (n : Z).

Inductive exn : Type :=
| ValueError
| TypeError
| StopIteration
| EOFError
| CsvError.

Definition result (A : Type) : Type := exn + A.

Definition raise {A} (e : exn) : result A := inl e.
Definition ret {A} (a : A) : result A := inr a.

Module Py.

(** Characters [int()] skips around a literal: the C locale's blanks, and
    NEL and NBSP, which the conversion to ASCII turns into a blank. *)
Definition isspace_int (c : ascii) : bool :=
  let n := code c in
  ((9 <=? n) && (n <=? 13)) || (n =? 32) || (n =? 133) || (n =? 160).

(** [str.isspace] on one code point below 256. *)
Definition isspace (c : ascii) : bool :=
  let n := code c in
  ((9 <=? n) && (n <=? 13)) || ((28 <=? n) && (n <=? 32))
  || (n =? 133) || (n =? 160).

Definition digit_val (c : ascii) : option Z :=
  let n := code c in
  if (48 <=? n) && (n <=? 57) then Some (n - 48) else None.

Definition is_underscore (c : ascii) : bool := code c =? 95.

Fixpoint lstrip (sp : ascii -> bool) (s : pystr) : pystr :=
  match s with
  | c :: s' => if sp c then lstrip sp s' else s
  | [] => []
  end.

(** [s.strip()] *)
Definition strip (s : pystr) : pystr :=
  rev (lstrip isspace (rev (lstrip isspace s))).

(** [c.lower()] for one code point below 256: A-Z, and the capital letters
    of Latin-1 (0xC0-0xDE but the multiplication sign 0xD7). *)
Definition lower_char (c : ascii) : ascii :=
  let n := code c in
  if ((65 <=? n) && (n <=? 90))
     || ((192 <=? n) && (n <=? 222) && negb (n =? 215))
  then chr (n + 32) else c.

(** [s.lower()] *)
Definition lower (s : pystr) : pystr := map lower_char s.

Fixpoint starts_with (p s : pystr) : bool :=
  match p, s with
  | [], _ => true
  | a :: p', b :: s' => Ascii.eqb a b && starts_with p' s'
  | _ :: _, [] => false
  end.

(** [p in s] on strings: [p] occurs in [s] as a substring. *)
Fixpoint contains (p s : pystr) : bool :=
  starts_with p s ||
  match s with
  | [] => false
  | _ :: s' => contains p s'
  end.

Definition str_eqb (a b : pystr) : bool := bool_decide (a = b).

(** [sys.get_int_max_str_digits()], as the interpreter starts (since
    Python 3.11): the most digits [int(s)] reads. *)
Definition int_max_str_digits : Z := 4300.

(** The digit loop of [int(s)] in base 10: digits, with single underscores
    between them.  [count] is the number of digits read, [us] says that the
    last character was an underscore.  [None] is the syntax error. *)
Fixpoint scan_digits (acc count : Z) (us : bool) (s : pystr)
  : option (Z * Z * pystr) :=
  match s with
  | c :: s' =>
      if is_underscore c then
        if us then None else scan_digits acc count true s'
      else
        match digit_val c with
        | Some d => scan_digits (10 * acc + d) (count + 1) false s'
        | None => if us then None else Some (acc, count, s)
        end
  | [] => if us then None else Some (acc, count, [])
  end.

(** [int(s)] for a string: [None] stands for [ValueError], which is raised
    for a text that is no literal and for a literal of more digits than
    [int_max_str_digits]. *)
Definition int_of_str (s : pystr) : option Z :=
  let s1 := lstrip isspace_int s in
  let '(sign, s2) :=
    match s1 with
    | c :: r => if code c =? 43 then (1, r)
                else if code c =? 45 then (-1, r) else (1, s1)
    | [] => (1, s1)
    end in
  match s2 with
  | c :: _ => if is_underscore c then None else
      match scan_digits 0 0 false s2 with
      | Some (v, count, rest) =>
          if (count =? 0) || (int_max_str_digits <? count) then None
          else
            match lstrip isspace_int rest with
            | [] => Some (sign * v)
            | _ :: _ => None
            end
      | None => None
      end
  | [] => None
  end.

(** [int(v)] *)
Definition int (v : pyval) : result Z :=
  match v with
  | PyInt n => ret n
  | PyStr s => match int_of_str s with
               | Some n => ret n
               | None => raise ValueError
               end
  | PyNone => raise TypeError
  end.

Definition digit_char (d : Z) : ascii := chr (48 + d).

Fixpoint digits_aux (fuel : nat) (n : Z) (acc : pystr) : pystr :=
  let acc' := digit_char (n mod 10) :: acc in
  match fuel with
  | O => acc'
  | S f => if n <? 10 then acc' else digits_aux f (n / 10) acc'
  end.

(** The decimal digits of [n >= 0]; a number has no more decimal digits
    than binary ones, which is the fuel. *)
Definition digits (n : Z) : pystr := digits_aux (Z.to_nat (Z.log2 n)) n [].

(** [str(n)] for an int.  The interpreter refuses with [ValueError] to write
    an int of more digits than [int_max_str_digits]; the model writes it.
    No count of a catalog has that many digits: every count comes out of
    [int(s)] and moves by one within the counts read.  Where a statement
    rests on the text of a count, it says that the count is [int_ok]. *)
Definition str_of_int (n : Z) : pystr :=
  if n <? 0 then chr 45 :: digits (- n) else digits n.

(** An int that [str] and [int] convert: at most [int_max_str_digits]
    digits. *)
Definition int_ok (n : Z) : Prop := Z.abs n < 10 ^ int_max_str_digits.

(** [random.randint(a, b)] is [a + randbelow(b - a + 1)], a value from [a]
    to [b].  [raw] is the randomness the call takes from the generator; the
    model keeps of it that it picks one value of the range, and that every
    value of the range is picked by some [raw]. *)
Definition randint (a b raw : Z) : Z := a + raw mod (b - a + 1).

(** [str(v)] *)
Definition str (v : pyval) : pystr :=
  match v with
  | PyStr s => s
  | PyInt n => str_of_int n
  | PyNone => lit "None"
  end.

(** A decimal digit; used to state what [digits] returns. *)
Definition is_digit (c : ascii) : Prop := exists d, 0 <= d <= 9 /\ c = digit_char d.

(** Reading digits from the left. *)
Definition dval (ds : pystr) : Z :=
  fold_left (fun a c => 10 * a + default 0 (digit_val c)) ds 0.

(** [format(s, '<width')]: [s] padded with blanks on the right up to
    [width] characters, never cut. *)
Definition format_left (s : pystr) (width : nat) : pystr :=
  s ++ repeat (chr 32) (width - length s).

End Py.

(** ** [class Book] *)

Module Book.

Record t : Type := mk {
  book_id : pystr;
  title : pystr;
  author : pystr;
  total_copies : Z;
  available_copies : Z
}.

(** [Book(book_id, title, author, total_copies, available_copies)].
    The identifier, title and author are [str] objects at both call sites
    ([str(book_id)] is then [book_id] itself); the counts are whatever the
    caller has: text from a row, [None] for a missing column, or an int.
    Only [ValueError] is caught; a [TypeError] from [int(None)] leaves the
    constructor. *)
Definition __init__ (book_id title author : pystr)
    (total_copies available_copies : pyval) : result t :=
  match Py.int total_copies with
  | inr total =>
      match Py.int available_copies with
      | inr available => ret (mk book_id title author total available)
      | inl ValueError => ret (mk book_id title author 0 0)
      | inl e => raise e
      end
  | inl ValueError => ret (mk book_id title author 0 0)
  | inl e => raise e
  end.

(** [to_dict]: the values under the keys of FIELDNAMES, in that order. *)
Definition to_dict (b : t) : list pyval :=
  [PyStr (book_id b); PyStr (title b); PyStr (author b);
   PyInt (total_copies b); PyInt (available_copies b)].

Definition set_available (b : t) (n : Z) : t :=
  mk (book_id b) (title b) (author b) (total_copies b) n.

(** [check_out]: the value returned and the object afterwards. *)
Definition check_out (b : t) : bool * t :=
  if 0 <? available_copies b
  then (true, set_available b (available_copies b - 1))
  else (false, b).

Definition check_in (b : t) : bool * t :=
  if available_copies b <? total_copies b
  then (true, set_available b (available_copies b + 1))
  else (false, b).

(** The invariant the data model states for a Record. *)
Definition copies_ok (b : t) : Prop :=
  0 <= available_copies b <= total_copies b.

(** [__str__]: the line [print(book)] writes. *)
Definition __str__ (b : t) : pystr :=
  lit "ID: " ++ Py.format_left (book_id b) 5
  ++ lit " | Title: " ++ Py.format_left (title b) 30
  ++ lit " | Author: " ++ Py.format_left (author b) 20
  ++ lit " | "
  ++ lit "Total: " ++ Py.format_left (Py.str (PyInt (total_copies b))) 3
  ++ lit " | Available: "
  ++ Py.format_left (Py.str (PyInt (available_copies b))) 3.

End Book.

Definition FIELDNAMES : list pystr :=
  [lit "BookID"; lit "Title"; lit "Author"; lit "TotalCopies";
   lit "AvailableCopies"].

(** ** The text file, read with [newline=''] *)

Module File.

Definition CR : ascii := chr 13.
Definition LF : ascii := chr 10.

(** A line ends after LF, and after a CR that no LF follows. *)
Definition ends_line (c : ascii) (rest : pystr) : bool :=
  Ascii.eqb c LF
  || (Ascii.eqb c CR
      && negb (match rest with d :: _ => Ascii.eqb d LF | [] => false end)).

Fixpoint readlines_from (cur : pystr) (s : pystr) : list pystr :=
  match s with
  | [] => match cur with [] => [] | _ :: _ => [cur] end
  | c :: s' =>
      if ends_line c s' then (cur ++ [c]) :: readlines_from [] s'
      else readlines_from (cur ++ [c]) s'
  end.

(** The lines iterating over the file yields, terminators kept. *)
Definition readlines (s : pystr) : list pystr := readlines_from [] s.

End File.

(** ** The [csv] module, "excel" dialect

    delimiter [,], quotechar the double quote, doublequote on, no
    escapechar, skipinitialspace off, lineterminator CR LF, QUOTE_MINIMAL,
    not strict. *)

Module Csv.

Definition delimiter : ascii := chr 44.
Definition quotechar : ascii := chr 34.
Definition lineterminator : pystr := [File.CR; File.LF].

(** *** Writer *)

Definition special (c : ascii) : bool :=
  Ascii.eqb c delimiter || Ascii.eqb c quotechar
  || existsb (Ascii.eqb c) lineterminator.

(** The characters of a field as they are copied: a quote is doubled. *)
Fixpoint copy_data (s : pystr) : pystr :=
  match s with
  | [] => []
  | c :: s' =>
      if Ascii.eqb c quotechar then c :: c :: copy_data s'
      else c :: copy_data s'
  end.

(** [join_append]: one field of the record, quoted when it holds a special
    character. *)
Definition join_append (s : pystr) : pystr :=
  if existsb special s then quotechar :: copy_data s ++ [quotechar]
  else s.

(** The text of a value: nothing for [None], [str(v)] otherwise. *)
Definition field_text (v : pyval) : pystr :=
  match v with
  | PyNone => []
  | _ => Py.str v
  end.

Fixpoint join (fs : list pystr) : pystr :=
  match fs with
  | [] => []
  | [f] => f
  | f :: fs' => f ++ delimiter :: join fs'
  end.

(** [writer.writerow(row)]: the text written.  A record of one empty field
    is written as a pair of quotes. *)
Definition writerow (row : list pyval) : pystr :=
  let rec := join (map (fun v => join_append (field_text v)) row) in
  match row, rec with
  | _ :: _, [] => [quotechar; quotechar] ++ lineterminator
  | _, _ => rec ++ lineterminator
  end.

(** *** Reader *)

Inductive pstate : Type :=
  | START_RECORD
  | START_FIELD
  | IN_FIELD
  | IN_QUOTED_FIELD
  | QUOTE_IN_QUOTED_FIELD
  | EAT_CRNL.

Global Instance pstate_eq_dec : EqDecision pstate.
Proof. solve_decision. Defined.

Record parser : Type := mkp {
  state : pstate;
  fields : list pystr;
  field : pystr
}.

Definition parse_reset : parser := mkp START_RECORD [] [].

Definition parse_save_field (p : parser) : parser :=
  mkp (state p) (fields p ++ [field p]) [].

(** [csv.field_size_limit()], as the module is loaded. *)
Definition field_size_limit : Z := 131072.

(** [parse_add_char]: a field that has [field_size_limit] characters takes
    no more, and the reader raises [_csv.Error]. *)
Definition parse_add_char (p : parser) (c : ascii) : result parser :=
  if field_size_limit <=? Z.of_nat (length (field p)) then raise CsvError
  else ret (mkp (state p) (fields p) (field p ++ [c])).

Definition set_state (p : parser) (s : pstate) : parser :=
  mkp s (fields p) (field p).

(** What the parser is given: a character of the line, or the mark the
    reader passes after the last character of each line. *)
Inductive input : Type :=
  | Ch (c : ascii)
  | EOL.

Definition is_nl (c : input) : bool :=
  match c with
  | Ch a => Ascii.eqb a File.LF || Ascii.eqb a File.CR
  | EOL => false
  end.

Definition is_ch (c : input) (a : ascii) : bool :=
  match c with
  | Ch b => Ascii.eqb b a
  | EOL => false
  end.

(** A character added to the field, and the state the parser goes to. *)
Definition add_char (p : parser) (c : ascii) (s : pstate) : result parser :=
  match parse_add_char p c with
  | inr p' => ret (set_state p' s)
  | inl e => raise e
  end.

Definition end_of_record (p : parser) (c : input) : parser :=
  set_state (parse_save_field p)
    (match c with EOL => START_RECORD | Ch _ => EAT_CRNL end).

Definition start_field (p : parser) (c : input) : result parser :=
  match c with
  | EOL => ret (end_of_record p c)
  | Ch a =>
      if is_nl c then ret (end_of_record p c)
      else if Ascii.eqb a quotechar then ret (set_state p IN_QUOTED_FIELD)
      else if Ascii.eqb a delimiter
        then ret (set_state (parse_save_field p) START_FIELD)
      else add_char p a IN_FIELD
  end.

(** [parse_process_char], the states an escapechar leads to left out
    (the dialect has none). *)
Definition parse_process_char (p : parser) (c : input) : result parser :=
  match state p with
  | START_RECORD =>
      match c with
      | EOL => ret p
      | Ch _ =>
          if is_nl c then ret (set_state p EAT_CRNL)
          else start_field p c
      end
  | START_FIELD => start_field p c
  | IN_FIELD =>
      match c with
      | EOL => ret (end_of_record p c)
      | Ch a =>
          if is_nl c then ret (end_of_record p c)
          else if Ascii.eqb a delimiter
            then ret (set_state (parse_save_field p) START_FIELD)
          else add_char p a IN_FIELD
      end
  | IN_QUOTED_FIELD =>
      match c with
      | EOL => ret p
      | Ch a =>
          if Ascii.eqb a quotechar
            then ret (set_state p QUOTE_IN_QUOTED_FIELD)
          else add_char p a IN_QUOTED_FIELD
      end
  | QUOTE_IN_QUOTED_FIELD =>
      match c with
      | EOL => ret (end_of_record p c)
      | Ch a =>
          if Ascii.eqb a quotechar
            then add_char p a IN_QUOTED_FIELD
          else if Ascii.eqb a delimiter
            then ret (set_state (parse_save_field p) START_FIELD)
          else if is_nl c then ret (end_of_record p c)
          else add_char p a IN_FIELD
      end
  | EAT_CRNL =>
      match c with
      | EOL => ret (set_state p START_RECORD)
      | Ch _ => if is_nl c then ret p else raise CsvError
      end
  end.

Fixpoint process_chars (p : parser) (l : pystr) : result parser :=
  match l with
  | [] => ret p
  | c :: l' =>
      match parse_process_char p (Ch c) with
      | inr p' => process_chars p' l'
      | inl e => raise e
      end
  end.

(** One turn of the loop of [Reader_iternext]: the characters of a line,
    then the end-of-line mark. *)
Definition process_line (p : parser) (l : pystr) : result parser :=
  match process_chars p l with
  | inr p' => parse_process_char p' EOL
  | inl e => raise e
  end.

(** The records a reader yields over the lines it is given, and the
    exception that ends the iteration, if one does ([None]: the lines ran
    out).  A record is complete when a line leaves the parser in
    START_RECORD; at the end of the input a pending field closes the last
    record. *)
Fixpoint records (p : parser) (lines : list pystr)
  : list (list pystr) * option exn :=
  match lines with
  | [] =>
      if bool_decide (field p <> []) || bool_decide (state p = IN_QUOTED_FIELD)
      then ([fields (parse_save_field p)], None)
      else ([], None)
  | l :: rest =>
      match process_line p l with
      | inl e => ([], Some e)
      | inr p' =>
          if bool_decide (state p' = START_RECORD)
          then let '(rs, e) := records parse_reset rest in (fields p' :: rs, e)
          else records p' rest
      end
  end.

Definition reader (lines : list pystr) : list (list pystr) * option exn :=
  records parse_reset lines.

(** [DictReader] with [fieldnames] given: blank records are dropped.  A row
    is kept as the list of its fields; the dict has every key of
    [fieldnames], the k-th with the k-th field, or [None] (restval) when the
    line has too few; fields past the last key go under the key [None]. *)
Definition DictReader (lines : list pystr)
  : list (list pystr) * option exn :=
  let '(rs, e) := reader lines in
  (filter (fun r => r <> []) rs, e).

Definition row_get (row : list pystr) (k : nat) : pyval :=
  match row !! k with
  | Some s => PyStr s
  | None => PyNone
  end.

(** *** The reader over the text itself

    What follows serves the proofs about reading back what was written. *)

(** The end of a line: the mark is passed, and a record is complete when it
    leaves the parser in START_RECORD. *)
Definition close_line (p : parser)
    (k : parser -> list (list pystr) * option exn)
  : list (list pystr) * option exn :=
  match parse_process_char p EOL with
  | inl e => ([], Some e)
  | inr p' =>
      if bool_decide (state p' = START_RECORD)
      then let '(rs, e) := k parse_reset in (fields p' :: rs, e)
      else k p'
  end.

(** [records] with the cutting into lines done on the way: [partial] says
    that the line being read has characters already. *)
Fixpoint feed (p : parser) (partial : bool) (s : pystr)
  : list (list pystr) * option exn :=
  match s with
  | [] => if partial then close_line p (fun q => records q []) else records p []
  | c :: s' =>
      match parse_process_char p (Ch c) with
      | inl e => ([], Some e)
      | inr p1 =>
          if File.ends_line c s' then close_line p1 (fun q => feed q false s')
          else feed p1 true s'
      end
  end.

(** The state in which the parser is after the text of a field. *)
Definition field_end (s : pystr) : pstate :=
  if existsb special s then QUOTE_IN_QUOTED_FIELD
  else match s with [] => START_FIELD | _ :: _ => IN_FIELD end.

End Csv.

(** ** [class Library] *)

Module Library.

Record t : Type := mk {
  books : list Book.t;
  (** [{BookID: (IssueDate, DueDate)}] *)
  issued_books : gmap pystr (Z * Z)
}.

(** What an operation prints. *)
Inductive report : Type :=
  | BookNotFound
  | Issued (title : pystr) (due_date : Z)
  | AllCheckedOut (title : pystr)
  | NotRecordedAsIssued (book_id : pystr) (incremented : bool)
  | ReturnedOverdue (title : pystr) (overdue_days fine : Z)
  | ReturnedOnTime (title : pystr)
  | CannotReturn (title : pystr).

(** The header line [writeheader] writes. *)
Definition header : pystr := Csv.writerow (map PyStr FIELDNAMES).

(** [Book(row['BookID'], row['Title'], row['Author'], row['TotalCopies'],
    row['AvailableCopies'])] for a row of the reader.  With fewer than three
    fields, ['TotalCopies'] is [None] and [int(None)] raises [TypeError]
    before anything else can fail. *)
Definition book_of_row (row : list pystr) : result Book.t :=
  match row with
  | book_id :: title :: author :: _ =>
      Book.__init__ book_id title author (Csv.row_get row 3) (Csv.row_get row 4)
  | _ => raise TypeError
  end.

(** The body of the loop over the reader: a row whose construction raises
    is reported and skipped. *)
Definition load_row (row : list pystr) : option Book.t :=
  match book_of_row row with
  | inr book => Some book
  | inl _ => None
  end.

(** [_load_books]: the books, and the file afterwards (a missing file is
    created with the header alone).  When [next(reader)] or a later step of
    the reader raises, the handler returns the books read so far. *)
Definition _load_books (file : option pystr) : list Book.t * option pystr :=
  match file with
  | None => ([], Some header)
  | Some text =>
      match fst (Csv.DictReader (File.readlines text)) with
      | [] => ([], file)
      | _ :: rows => (omap load_row rows, file)
      end
  end.

(** [save_books]: the text the file holds afterwards. *)
Definition save_books (self : t) : pystr :=
  header ++ concat (map (fun book => Csv.writerow (Book.to_dict book)) (books self)).

(** [Library()] *)
Definition __init__ (file : option pystr) : t * option pystr :=
  let '(books, file') := _load_books file in (mk books ∅, file').

Definition existing_ids (self : t) : gset pystr :=
  list_to_set (map Book.book_id (books self)).

(** The loop of [_get_next_id]: [draws] is what the generator gives to
    [random.randint(1000, 9999)], turn after turn.  [None]: every value drawn
    collided, and the loop is still running. *)
Fixpoint next_id_loop (existing : gset pystr) (draws : list Z)
  : option (pystr * list Z) :=
  match draws with
  | [] => None
  | r :: rest =>
      let new_id := Py.str (PyInt (Py.randint 1000 9999 r)) in
      if decide (new_id ∉ existing) then Some (new_id, rest)
      else next_id_loop existing rest
  end.

Definition _get_next_id (self : t) (draws : list Z) : option (pystr * list Z) :=
  next_id_loop (existing_ids self) draws.

(** The test of [_find_book] on one book, the query already in lower case. *)
Definition matches (query : pystr) (book : Book.t) : bool :=
  Py.str_eqb query (Py.lower (Book.book_id book))
  || Py.contains query (Py.lower (Book.title book)).

(** [_find_book]: the first match, with its place in [books] (the object
    returned is the one the list holds). *)
Definition _find_book (self : t) (query : pystr) : option (nat * Book.t) :=
  list_find (fun book => matches (Py.lower query) book = true) (books self).

Definition set_book (self : t) (i : nat) (book : Book.t) : t :=
  mk (<[i := book]> (books self)) (issued_books self).

Definition DAY : Z := 86400 * 1000000.

(** [timedelta(days=n)] *)
Definition timedelta_days (n : Z) : Z := n * DAY.

(** [(a - b).days] *)
Definition days_between (a b : Z) : Z := (a - b) / DAY.

(** The loop of [add_book] that asks for the quantity, over the lines typed;
    when they run out, [input] raises [EOFError]. *)
Fixpoint read_quantity (lines : list pystr) : result Z :=
  match lines with
  | [] => raise EOFError
  | l :: rest =>
      match Py.int (PyStr l) with
      | inr total_copies =>
          if total_copies <=? 0 then read_quantity rest else ret total_copies
      | inl ValueError => read_quantity rest
      | inl e => raise e
      end
  end.

(** [add_book]: [None] while [_get_next_id] has not returned. *)
Definition add_book (self : t) (draws : list Z) (title_line author_line : pystr)
    (quantity_lines : list pystr) : option (result (t * pystr)) :=
  match _get_next_id self draws with
  | None => None
  | Some (book_id, _) =>
      let title := Py.strip title_line in
      let author := Py.strip author_line in
      Some
        match read_quantity quantity_lines with
        | inl e => raise e
        | inr total_copies =>
            match Book.__init__ book_id title author
                    (PyInt total_copies) (PyInt total_copies) with
            | inl e => raise e
            | inr new_book =>
                ret (mk (books self ++ [new_book]) (issued_books self), book_id)
            end
        end
  end.

(** [search_book]: the books printed; [None] when the query is empty and the
    method returns at once. *)
Definition search_book (self : t) (line : pystr) : option (list Book.t) :=
  let query := Py.strip line in
  match query with
  | [] => None
  | _ :: _ =>
      Some (filter
              (fun b => Py.contains (Py.lower query) (Py.lower (Book.book_id b))
                        || Py.contains (Py.lower query) (Py.lower (Book.title b))
                        = true)
              (books self))
  end.

(** [issue_book]: [line] is what [input] returns, [now1] and [now2] the two
    readings of [datetime.now()]. *)
Definition issue_book (self : t) (line : pystr) (now1 now2 : Z) : t * report :=
  let query := Py.strip line in
  match _find_book self query with
  | None => (self, BookNotFound)
  | Some (i, book) =>
      let '(ok, book') := Book.check_out book in
      let self := set_book self i book' in
      if ok then
        let due_date := now1 + timedelta_days 14 in
        (mk (books self)
            (<[Book.book_id book' := (now2, due_date)]> (issued_books self)),
         Issued (Book.title book') due_date)
      else (self, AllCheckedOut (Book.title book'))
  end.

(** [return_book]: [now] is the reading of [datetime.now()]. *)
Definition return_book (self : t) (line : pystr) (now : Z) : t * report :=
  let query := Py.strip line in
  match _find_book self query with
  | None => (self, BookNotFound)
  | Some (i, book) =>
      match issued_books self !! Book.book_id book with
      | None =>
          if Book.available_copies book <? Book.total_copies book then
            let '(_, book') := Book.check_in book in
            (set_book self i book', NotRecordedAsIssued (Book.book_id book) true)
          else (self, NotRecordedAsIssued (Book.book_id book) false)
      | Some (issue_date, due_date) =>
          let '(ok, book') := Book.check_in book in
          let self := set_book self i book' in
          if ok then
            let self :=
              mk (books self) (delete (Book.book_id book') (issued_books self)) in
            let today := now in
            if due_date <? today then
              let overdue_days := days_between today due_date in
              let fine := overdue_days * 10 in
              (self, ReturnedOverdue (Book.title book') overdue_days fine)
            else (self, ReturnedOnTime (Book.title book'))
          else (self, CannotReturn (Book.title book'))
      end
  end.

(** The fine a report of [return_book] tells the user: none when the book
    came back on time. *)
Definition reported_fine (r : report) : option Z :=
  match r with
  | ReturnedOverdue _ _ fine => Some fine
  | ReturnedOnTime _ => Some 0
  | _ => None
  end.

End Library.

(** ** Definitions the statements use *)

(** The fields the reader gives back for the row of a book. *)
Definition row_texts (book : Book.t) : list pystr :=
  map Csv.field_text (Book.to_dict book).

(** A field of at most [field_size_limit] characters. *)
Definition fits (s : pystr) : Prop :=
  Z.of_nat (length s) <= Csv.field_size_limit.

(** A Record that the file can hold: each text within the field size limit
    of the reader, each count within the digits [int] reads. *)
Definition storable (b : Book.t) : Prop :=
  fits (Book.book_id b) /\ fits (Book.title b) /\ fits (Book.author b)
  /\ Py.int_ok (Book.total_copies b) /\ Py.int_ok (Book.available_copies b).

(** A Record whose counts [str] and [int] convert. *)
Definition counts_convert (b : Book.t) : Prop :=
  Py.int_ok (Book.total_copies b) /\ Py.int_ok (Book.available_copies b).

(** A Record whose id, title and author are within the field size limit of
    the reader. *)
Definition texts_fit (b : Book.t) : Prop :=
  fits (Book.book_id b) /\ fits (Book.title b) /\ fits (Book.author b).

(** The line of the file for a row of texts: what the writer writes for
    it. *)
Definition row_line (row : list pystr) : pystr := Csv.writerow (map PyStr row).

(** The file whose lines are those of [rows]. *)
Definition file_of_rows (rows : list (list pystr)) : pystr :=
  concat (map row_line rows).

(** A row that the reader gives back as it was written: two fields or more,
    each within the field size limit. *)
Definition row_ok (row : list pystr) : Prop :=
  (2 <= length row)%nat /\ Forall fits row.


(** The id that [_get_next_id] makes of one draw. *)
Definition drawn_id (raw : Z) : pystr :=
  Py.str (PyInt (Py.randint 1000 9999 raw)).

(** The fields of a Record that no operation of the catalog writes. *)
Definition frame (b : Book.t) : pystr * pystr * pystr * Z :=
  (Book.book_id b, Book.title b, Book.author b, Book.total_copies b).

(** Overdue days in the words of the specification: the whole days by which
    [now] exceeds [due], zero when it does not. *)
Definition overdue_days (now due d : Z) : Prop :=
  if due <? now
  then 0 <= d /\ due + d * Library.DAY <= now < due + (d + 1) * Library.DAY
  else d = 0.

(** Inputs the examples run on. *)
Module Examples.

Definition dune : Book.t := Book.mk (lit "1000") (lit "Dune") (lit "Herbert") 3 3.
Definition dune_out : Book.t := Book.mk (lit "1000") (lit "Dune") (lit "Herbert") 3 0.
Definition one_book : Library.t := Library.mk [dune] ∅.
Definition all_out : Library.t := Library.mk [dune_out] ∅.
Definition day : Z := Library.DAY.
(** [dune] lent at time 0, two copies left. *)
Definition lent : Library.t :=
  Library.mk [Book.set_available dune 2] {[ lit "1000" := (0, 14 * day) ]}.

(** A catalog whose one book has a title of 131073 characters. *)
Definition long_title : pystr := repeat (chr 97) (Z.to_nat 131073).
Definition long_catalog : Library.t :=
  Library.mk [Book.mk (lit "1000") long_title (lit "Herbert") 1 1] ∅.

End Examples.

(** ** [main] *)

Module Main.

(** What the session takes from outside: the lines still to be read from the
    standard input, the values [random.randint] is still to return, and the
    number of readings of the clock so far. *)
Record world : Type := mk_world {
  stdin : list pystr;
  randoms : list Z;
  ticks : nat
}.

(** How a session ends: through choice 6; by an exception that leaves [main]
    ([input] at the end of the input); inside [_get_next_id], still drawing
    when the values given ran out; or past the turns allowed. *)
Inductive outcome : Type :=
  | Exited (library : Library.t) (file : option pystr)
  | Raised (e : exn) (library : Library.t) (file : option pystr)
  | Drawing (library : Library.t) (file : option pystr)
  | OutOfFuel.

(** The lines left on the input after the quantity loop of [add_book]. *)
Fixpoint quantity_rest (lines : list pystr) : list pystr :=
  match lines with
  | [] => []
  | l :: rest =>
      match Py.int (PyStr l) with
      | inr total_copies =>
          if total_copies <=? 0 then quantity_rest rest else rest
      | inl ValueError => quantity_rest rest
      | inl _ => rest
      end
  end.

(** The readings of the clock an operation made, by what it printed. *)
Definition clock_readings (r : Library.report) : nat :=
  match r with
  | Library.Issued _ _ => 2
  | Library.ReturnedOverdue _ _ _ | Library.ReturnedOnTime _ => 1
  | _ => 0
  end.

(** The [while True] of [main], menu and messages left out: [clock k] is the
    k-th reading of [datetime.now()]. *)
Fixpoint loop (fuel : nat) (clock : nat -> Z) (library : Library.t)
    (w : world) (file : option pystr) : outcome :=
  match fuel with
  | O => OutOfFuel
  | S fuel =>
      match stdin w with
      | [] => Raised EOFError library file
      | line :: rest =>
          let choice := Py.strip line in
          if bool_decide (choice = lit "1") then
            match Library._get_next_id library (randoms w) with
            | None => Drawing library file
            | Some (_, randoms') =>
                match rest with
                | title_line :: author_line :: quantity_lines =>
                    match Library.add_book library (randoms w) title_line
                            author_line quantity_lines with
                    | Some (inr (library', _)) =>
                        loop fuel clock library'
                          (mk_world (quantity_rest quantity_lines) randoms'
                             (ticks w)) file
                    | Some (inl e) => Raised e library file
                    | None => Drawing library file
                    end
                | _ => Raised EOFError library file
                end
            end
          else if bool_decide (choice = lit "2") then
            loop fuel clock library (mk_world rest (randoms w) (ticks w)) file
          else if bool_decide (choice = lit "3") then
            match rest with
            | [] => Raised EOFError library file
            | _ :: rest' =>
                loop fuel clock library (mk_world rest' (randoms w) (ticks w)) file
            end
          else if bool_decide (choice = lit "4") then
            match rest with
            | [] => Raised EOFError library file
            | query :: rest' =>
                let '(library', r) :=
                  Library.issue_book library query (clock (ticks w))
                    (clock (S (ticks w))) in
                loop fuel clock library'
                  (mk_world rest' (randoms w) (clock_readings r + ticks w)) file
            end
          else if bool_decide (choice = lit "5") then
            match rest with
            | [] => Raised EOFError library file
            | query :: rest' =>
                let '(library', r) :=
                  Library.return_book library query (clock (ticks w)) in
                loop fuel clock library'
                  (mk_world rest' (randoms w) (clock_readings r + ticks w)) file
            end
          else if bool_decide (choice = lit "6") then
            Exited library (Some (Library.save_books library))
          else
            loop fuel clock library (mk_world rest (randoms w) (ticks w)) file
      end
  end.

(** [main()]: the catalog is loaded, then the menu runs. *)
Definition main (fuel : nat) (clock : nat -> Z) (w : world)
    (file : option pystr) : outcome :=
  let '(library, file') := Library.__init__ file in
  loop fuel clock library w file'.

(** The catalog when the session ended, if it did. *)
Definition final_library (o : outcome) : option Library.t :=
  match o with
  | Exited library _ | Raised _ library _ | Drawing library _ => Some library
  | OutOfFuel => None
  end.

Definition final_file (o : outcome) : option (option pystr) :=
  match o with
  | Exited _ file | Raised _ _ file | Drawing _ file => Some file
  | OutOfFuel => None
  end.

End Main.

(** An answer to the quantity prompt that [add_book] turns down: not a
    number, or a number that is not positive. *)
Definition invalid_quantity (l : pystr) : Prop :=
  match Py.int_of_str l with
  | None => True
  | Some n => n <= 0
  end.

(** What a whole session keeps of a catalog: the copy counts in range, the
    ids all different, and loan entries only under ids of the catalog. *)
Definition well_kept (library : Library.t) : Prop :=
  Forall Book.copies_ok (Library.books library)
  /\ NoDup (map Book.book_id (Library.books library))
  /\ forall k, is_Some (Library.issued_books library !! k) ->
               k ∈ map Book.book_id (Library.books library).

(** A session for the examples: a book is added, issued and returned, and
    the catalog saved. *)
Definition session : Main.world :=
  Main.mk_world
    [lit "1"; lit "Dune"; lit "Herbert"; lit "zero"; lit "3";
     lit "4"; lit "dune"; lit "9"; lit "2"; lit "5"; lit "DUNE"; lit " 6 "]
    [0] 0.

(** [check_out] called [n] times over. *)
Definition check_out_times (n : nat) (b : Book.t) : Book.t :=
  Nat.iter n (fun b => snd (Book.check_out b)) b.

(** * Properties *)

(** ** The model on small inputs *)

Example int_spaces : Py.int (PyStr (lit " +1_000 ")) = ret 1000.
Proof. reflexivity. Qed.
Example int_neg : Py.int (PyStr (lit "-37")) = ret (-37).
Proof. reflexivity. Qed.
Example int_bad : Py.int (PyStr (lit "1__0")) = raise ValueError.
Proof. reflexivity. Qed.
Example int_empty : Py.int (PyStr []) = raise ValueError.
Proof. reflexivity. Qed.
Example str_int : Py.str (PyInt (-1203)) = lit "-1203".
Proof. reflexivity. Qed.
Example str_zero : Py.str (PyInt 0) = lit "0".
Proof. reflexivity. Qed.
(** [int] reads 4300 digits and no more. *)
Example int_limit :
  Py.int_of_str (repeat (chr 49) 4301) = None
  /\ is_Some (Py.int_of_str (repeat (chr 49) 4300)).
Proof. split; [vm_compute; reflexivity | vm_compute; eauto]. Qed.
(** The ids drawn are those of 1000 to 9999. *)
Example drawn_ids :
  drawn_id 0 = lit "1000" /\ drawn_id 8999 = lit "9999"
  /\ drawn_id 9000 = lit "1000".
Proof. repeat split. Qed.
Example lower_ex : Py.lower (lit "The LORD") = lit "the lord".
Proof. reflexivity. Qed.
Example strip_ex : Py.strip (lit "  Dune ") = lit "Dune".
Proof. reflexivity. Qed.
Example writerow_ex :
  Csv.writerow [PyStr (lit "17"); PyStr (lit "a,b"); PyInt 3]
  = lit "17," ++ [Csv.quotechar] ++ lit "a,b" ++ [Csv.quotechar]
    ++ lit ",3" ++ Csv.lineterminator.
Proof. reflexivity. Qed.
Example reader_ex :
  Csv.reader (File.readlines
    (lit "x,y" ++ [File.CR; File.LF] ++ [File.LF]
     ++ [Csv.quotechar] ++ lit "p" ++ [File.LF] ++ lit "q" ++ [Csv.quotechar]
     ++ lit ",r"))
  = ([[lit "x"; lit "y"]; []; [lit "p" ++ [File.LF] ++ lit "q"; lit "r"]], None).
Proof. vm_compute. reflexivity. Qed.

(** ** Integers as decimal text *)

Section Decimal.

Ltac ten_cases d :=
  let H := fresh in
  assert (H : d = 0 \/ d = 1 \/ d = 2 \/ d = 3 \/ d = 4 \/ d = 5 \/ d = 6
              \/ d = 7 \/ d = 8 \/ d = 9) by lia;
  repeat (destruct H as [H | H]); subst d.

Lemma digit_val_char d : 0 <= d <= 9 -> Py.digit_val (Py.digit_char d) = Some d.
Proof. intros Hd. ten_cases d; reflexivity. Qed.

Lemma digit_not_underscore d : 0 <= d <= 9 -> Py.is_underscore (Py.digit_char d) = false.
Proof. intros Hd. ten_cases d; reflexivity. Qed.

Lemma digit_not_space d : 0 <= d <= 9 -> Py.isspace_int (Py.digit_char d) = false.
Proof. intros Hd. ten_cases d; reflexivity. Qed.

Lemma digit_not_sign d :
  0 <= d <= 9 ->
  (code (Py.digit_char d) =? 43) = false /\ (code (Py.digit_char d) =? 45) = false.
Proof. intros Hd. ten_cases d; split; reflexivity. Qed.

Lemma digit_not_special d : 0 <= d <= 9 -> Csv.special (Py.digit_char d) = false.
Proof. intros Hd. ten_cases d; reflexivity. Qed.

Lemma dval_snoc ds c : Py.dval (ds ++ [c]) = 10 * Py.dval ds + default 0 (Py.digit_val c).
Proof. unfold Py.dval. by rewrite fold_left_app. Qed.

Lemma digits_aux_acc fuel : forall n acc,
  Py.digits_aux fuel n acc = Py.digits_aux fuel n [] ++ acc.
Proof.
  induction fuel as [|f IH]; intros n acc; simpl; [done|].
  destruct (n <? 10); [done|].
  rewrite (IH _ [_]), (IH _ (_ :: acc)). by rewrite <- app_assoc.
Qed.

Lemma digits_aux_spec fuel : forall n,
  0 <= n < 2 ^ (Z.of_nat fuel + 1) ->
  Forall Py.is_digit (Py.digits_aux fuel n []) /\
  Py.digits_aux fuel n [] <> [] /\
  Py.dval (Py.digits_aux fuel n []) = n.
Proof.
  induction fuel as [|f IH]; intros n Hn.
  - simpl in *. assert (Hlt : n < 10) by lia.
    rewrite Z.mod_small by lia.
    split; [|split; [done|]].
    + constructor; [|constructor]. exists n. split; [lia|done].
    + unfold Py.dval. simpl. rewrite digit_val_char by lia. simpl. lia.
  - cbn [Py.digits_aux]. destruct (Z.ltb_spec n 10) as [Hlt|Hge].
    + rewrite Z.mod_small by lia.
      split; [|split; [done|]].
      * constructor; [|constructor]. exists n. split; [lia|done].
      * unfold Py.dval. simpl. rewrite digit_val_char by lia. simpl. lia.
    + rewrite digits_aux_acc.
      assert (Hq : 0 <= n / 10 < 2 ^ (Z.of_nat f + 1)).
      { split; [apply Z.div_pos; lia|].
        apply Z.div_lt_upper_bound; [lia|].
        replace (Z.of_nat (S f) + 1) with (Z.succ (Z.of_nat f + 1)) in Hn by lia.
        rewrite Z.pow_succ_r in Hn by lia. lia. }
      destruct (IH _ Hq) as (Hd & Hne & Hv).
      assert (Hm : 0 <= n mod 10 <= 9) by (pose proof (Z.mod_pos_bound n 10); lia).
      split; [|split].
      * apply Forall_app. split; [done|]. constructor; [|constructor].
        exists (n mod 10). split; [lia|done].
      * intros Heq. by apply app_eq_nil in Heq as [_ ?].
      * rewrite dval_snoc, Hv, digit_val_char by lia. simpl.
        pose proof (Z.div_mod n 10). lia.
Qed.

Lemma digits_spec n :
  0 <= n ->
  Forall Py.is_digit (Py.digits n) /\ Py.digits n <> [] /\ Py.dval (Py.digits n) = n.
Proof.
  intros Hn. apply digits_aux_spec.
  destruct (Z.eq_dec n 0) as [->|Hnz]; [simpl; lia|].
  rewrite Z2Nat.id by apply Z.log2_nonneg.
  pose proof (Z.log2_spec n). lia.
Qed.

Lemma scan_digits_all ds : forall acc count,
  Forall Py.is_digit ds ->
  Py.scan_digits acc count false ds
  = Some (fold_left (fun a c => 10 * a + default 0 (Py.digit_val c)) ds acc,
          count + Z.of_nat (length ds), []).
Proof.
  induction ds as [|c ds IH]; intros acc count Hd; cbn [Py.scan_digits].
  - cbn. by rewrite Z.add_0_r.
  - inversion Hd as [|? ? (d & Hr & ->) Hds]; subst.
    rewrite digit_not_underscore, digit_val_char by done.
    rewrite IH by done. cbn [fold_left length]. rewrite digit_val_char by done.
    cbn [default].
    by replace (count + Z.of_nat (S (length ds)))
      with (count + 1 + Z.of_nat (length ds)) by lia.
Qed.

(** The digits of a number below [10 ^ k] are [k] at most. *)
Lemma digits_aux_length fuel : forall n (k : nat),
  (1 <= k)%nat ->
  0 <= n < 10 ^ Z.of_nat k ->
  0 <= n < 2 ^ (Z.of_nat fuel + 1) ->
  (length (Py.digits_aux fuel n []) <= k)%nat.
Proof.
  induction fuel as [|f IH]; intros n k Hk1 Hk Hn.
  - cbn. lia.
  - cbn [Py.digits_aux]. destruct (Z.ltb_spec n 10) as [Hlt|Hge].
    + cbn. lia.
    + rewrite digits_aux_acc, length_app. cbn [length].
      destruct k as [|k]; [lia|].
      assert (Hpow : 10 ^ Z.of_nat (S k) = 10 * 10 ^ Z.of_nat k).
      { rewrite Nat2Z.inj_succ. apply Z.pow_succ_r. lia. }
      rewrite Hpow in Hk.
      assert (Hk' : (1 <= k)%nat).
      { destruct k; [cbn in Hk; lia | lia]. }
      set (B := 10 ^ Z.of_nat k) in *.
      assert (Hq : (length (Py.digits_aux f (n / 10) []) <= k)%nat).
      { apply IH; [done| |].
        - split; [apply Z.div_pos; lia|]. apply Z.div_lt_upper_bound; lia.
        - split; [apply Z.div_pos; lia|].
          apply Z.div_lt_upper_bound; [lia|].
          replace (Z.of_nat (S f) + 1) with (Z.succ (Z.of_nat f + 1)) in Hn by lia.
          rewrite Z.pow_succ_r in Hn by lia. lia. }
      lia.
Qed.

Lemma digits_length n :
  0 <= n < 10 ^ Py.int_max_str_digits ->
  Z.of_nat (length (Py.digits n)) <= Py.int_max_str_digits.
Proof.
  intros Hn. unfold Py.digits.
  assert (Hlen : (length (Py.digits_aux (Z.to_nat (Z.log2 n)) n [])
                  <= Z.to_nat Py.int_max_str_digits)%nat).
  { apply digits_aux_length.
    - unfold Py.int_max_str_digits. lia.
    - rewrite Z2Nat.id by (unfold Py.int_max_str_digits; lia). exact Hn.
    - destruct Hn as [Hn _]. split; [done|].
      destruct (Z.eq_dec n 0) as [->|Hnz]; [simpl; lia|].
      rewrite Z2Nat.id by apply Z.log2_nonneg.
      pose proof (Z.log2_spec n). lia. }
  unfold Py.int_max_str_digits in *. lia.
Qed.

Lemma count_ok (ds : pystr) :
  ds <> [] -> Z.of_nat (length ds) <= Py.int_max_str_digits ->
  (0 + Z.of_nat (length ds) =? 0)
  || (Py.int_max_str_digits <? 0 + Z.of_nat (length ds)) = false.
Proof.
  intros Hne Hlen. destruct ds as [|c ds]; [done|].
  rewrite length_cons, Nat2Z.inj_succ in *.
  apply orb_false_iff. split; [apply Z.eqb_neq | apply Z.ltb_ge]; lia.
Qed.

Lemma int_of_digits ds :
  Forall Py.is_digit ds -> ds <> [] ->
  Z.of_nat (length ds) <= Py.int_max_str_digits ->
  Py.int_of_str ds = Some (Py.dval ds).
Proof.
  intros Hd Hne Hlen. pose proof (count_ok ds Hne Hlen) as Hcount.
  destruct ds as [|c ds]; [done|].
  inversion Hd as [|? ? (d & Hr & ->) Hds]; subst.
  unfold Py.int_of_str. cbn [Py.lstrip].
  rewrite digit_not_space by done.
  destruct (digit_not_sign d Hr) as [-> ->].
  rewrite digit_not_underscore by done.
  rewrite scan_digits_all by done. rewrite Hcount. cbn [Py.lstrip].
  f_equal. unfold Py.dval. lia.
Qed.

Lemma int_of_neg_digits ds :
  Forall Py.is_digit ds -> ds <> [] ->
  Z.of_nat (length ds) <= Py.int_max_str_digits ->
  Py.int_of_str (chr 45 :: ds) = Some (- Py.dval ds).
Proof.
  intros Hd Hne Hlen. pose proof (count_ok ds Hne Hlen) as Hcount.
  destruct ds as [|c ds]; [done|].
  inversion Hd as [|? ? (d & Hr & ->) Hds]; subst.
  unfold Py.int_of_str. cbn [Py.lstrip].
  change (Py.isspace_int (chr 45)) with false. cbv iota.
  change (code (chr 45) =? 43) with false.
  change (code (chr 45) =? 45) with true. cbv iota.
  rewrite digit_not_underscore by done.
  rewrite scan_digits_all by done. rewrite Hcount. cbn [Py.lstrip].
  unfold Py.dval. f_equal; lia.
Qed.

(** [int(str(n))] is [n], for an int within the digits [int] reads. *)
Lemma int_of_str_of_int n :
  Py.int_ok n -> Py.int_of_str (Py.str_of_int n) = Some n.
Proof.
  unfold Py.int_ok, Py.str_of_int. intros Hok.
  destruct (Z.ltb_spec n 0) as [Hneg|Hpos].
  - destruct (digits_spec (- n)) as (Hd & Hne & Hv); [lia|].
    rewrite int_of_neg_digits; [f_equal; lia | done | done |].
    apply digits_length. set (B := 10 ^ _) in *. lia.
  - destruct (digits_spec n Hpos) as (Hd & Hne & Hv).
    rewrite int_of_digits; [by f_equal | done | done |].
    apply digits_length. set (B := 10 ^ _) in *. lia.
Qed.

Lemma is_digit_not_special c : Py.is_digit c -> Csv.special c = false.
Proof. intros (d & Hr & ->). by apply digit_not_special. Qed.

Lemma str_of_int_plain n : existsb Csv.special (Py.str_of_int n) = false.
Proof.
  assert (Hall : forall ds, Forall Py.is_digit ds -> existsb Csv.special ds = false).
  { induction 1 as [|c ds Hc _ IH]; simpl; [done|].
    by rewrite is_digit_not_special, IH. }
  unfold Py.str_of_int. destruct (Z.ltb_spec n 0) as [Hneg|Hpos].
  - destruct (digits_spec (- n)) as (Hd & _); [lia|].
    simpl. rewrite Hall by done. reflexivity.
  - destruct (digits_spec n Hpos) as (Hd & _). by apply Hall.
Qed.

Lemma str_of_int_nonempty n : Py.str_of_int n <> [].
Proof.
  unfold Py.str_of_int. destruct (Z.ltb_spec n 0) as [Hneg|Hpos]; [done|].
  by destruct (digits_spec n Hpos) as (_ & Hne & _).
Qed.

End Decimal.
(** ** The reader over the text of the file *)

Import Csv.

Lemma process_chars_app p a b :
  process_chars p (a ++ b)
  = match process_chars p a with
    | inr p' => process_chars p' b
    | inl e => inl e
    end.
Proof.
  revert p. induction a as [|c a IH]; intros p; simpl; [done|].
  destruct (parse_process_char p (Ch c)); [done|]. apply IH.
Qed.

Lemma readlines_from_cons cur s :
  cur <> [] -> exists x ls, File.readlines_from cur s = (cur ++ x) :: ls.
Proof.
  revert cur. induction s as [|c s IH]; intros cur Hne; simpl.
  - destruct cur; [done|]. exists [], []. by rewrite app_nil_r.
  - destruct (File.ends_line c s).
    + by exists [c], (File.readlines_from [] s).
    + destruct (IH (cur ++ [c])) as (x & ls & ->).
      { intros Heq. by apply app_eq_nil in Heq as [_ ?]. }
      exists (c :: x), ls. by rewrite <- app_assoc.
Qed.

Lemma records_readlines s : forall cur p0 p,
  process_chars p0 cur = inr p ->
  records p0 (File.readlines_from cur s) = feed p (bool_decide (cur <> [])) s.
Proof.
  induction s as [|c s IH]; intros cur p0 p Hp.
  - destruct cur as [|a cur].
    + simpl in Hp. by inversion Hp.
    + cbn [File.readlines_from feed]. rewrite bool_decide_true by done.
      cbn [records]. unfold process_line, close_line. rewrite Hp.
      destruct (parse_process_char p EOL) as [e|p']; [done|].
      case_bool_decide; [|done]. reflexivity.
  - cbn [File.readlines_from feed].
    assert (Hstep : process_chars p0 (cur ++ [c])
                    = match parse_process_char p (Ch c) with
                      | inr p1 => inr p1 | inl e => inl e end).
    { rewrite process_chars_app, Hp. simpl.
      by destruct (parse_process_char p (Ch c)). }
    destruct (parse_process_char p (Ch c)) as [e|p1] eqn:Hc.
    + destruct (File.ends_line c s).
      * cbn [records]. unfold process_line. by rewrite Hstep.
      * destruct (readlines_from_cons (cur ++ [c]) s) as (x & ls & ->).
        { intros Heq. by apply app_eq_nil in Heq as [_ ?]. }
        cbn [records]. unfold process_line.
        by rewrite process_chars_app, Hstep.
    + destruct (File.ends_line c s).
      * cbn [records]. unfold process_line, close_line. rewrite Hstep.
        destruct (parse_process_char p1 EOL) as [e|p']; [done|].
        case_bool_decide.
        -- by rewrite (IH [] parse_reset parse_reset).
        -- by rewrite (IH [] p' p').
      * rewrite (IH (cur ++ [c]) p0 p1 Hstep).
        rewrite bool_decide_true; [done|].
        intros Heq. by apply app_eq_nil in Heq as [_ ?].
Qed.

(** The reader over the lines of a text is [feed] over the text. *)
Lemma reader_readlines s : reader (File.readlines s) = feed parse_reset false s.
Proof. apply (records_readlines s [] parse_reset parse_reset). reflexivity. Qed.

(** *** Reading back what the writer wrote *)

Lemma special_false c :
  special c = false ->
  Ascii.eqb c delimiter = false /\ Ascii.eqb c quotechar = false
  /\ Ascii.eqb c File.CR = false /\ Ascii.eqb c File.LF = false.
Proof.
  unfold special, lineterminator. simpl.
  destruct (Ascii.eqb c delimiter), (Ascii.eqb c quotechar),
    (Ascii.eqb c File.CR), (Ascii.eqb c File.LF); simpl; intros; try done.
Qed.

Lemma add_char_ok st fs f c st' :
  Z.of_nat (length f) < field_size_limit ->
  add_char (mkp st fs f) c st' = inr (mkp st' fs (f ++ [c])).
Proof.
  intros Hlen. unfold add_char, parse_add_char. cbn [field fields state].
  destruct (Z.leb_spec field_size_limit (Z.of_nat (length f))); [lia|done].
Qed.

Lemma add_char_full st fs f c st' :
  field_size_limit <= Z.of_nat (length f) ->
  add_char (mkp st fs f) c st' = inl CsvError.
Proof.
  intros Hlen. unfold add_char, parse_add_char. cbn [field fields state].
  destruct (Z.leb_spec field_size_limit (Z.of_nat (length f))); [done|lia].
Qed.

Lemma ends_line_plain c rest : special c = false -> File.ends_line c rest = false.
Proof.
  intros Hc. destruct (special_false c Hc) as (_ & _ & Hcr & Hlf).
  unfold File.ends_line. by rewrite Hcr, Hlf.
Qed.

Lemma step_in_field c fs f :
  special c = false ->
  parse_process_char (mkp IN_FIELD fs f) (Ch c) = add_char (mkp IN_FIELD fs f) c IN_FIELD.
Proof.
  intros Hc. destruct (special_false c Hc) as (Hd & _ & Hcr & Hlf).
  unfold parse_process_char, is_nl. cbn [state]. by rewrite Hd, Hcr, Hlf.
Qed.

Lemma step_start_field c fs f :
  special c = false ->
  parse_process_char (mkp START_FIELD fs f) (Ch c)
  = add_char (mkp START_FIELD fs f) c IN_FIELD.
Proof.
  intros Hc. destruct (special_false c Hc) as (Hd & Hq & Hcr & Hlf).
  unfold parse_process_char, start_field, is_nl. cbn [state].
  by rewrite Hd, Hq, Hcr, Hlf.
Qed.

Lemma step_start_record c fs f :
  special c = false ->
  parse_process_char (mkp START_RECORD fs f) (Ch c)
  = add_char (mkp START_RECORD fs f) c IN_FIELD.
Proof.
  intros Hc. destruct (special_false c Hc) as (Hd & Hq & Hcr & Hlf).
  unfold parse_process_char, start_field, is_nl. cbn [state].
  by rewrite Hd, Hq, Hcr, Hlf.
Qed.

Lemma step_quoted c fs f :
  Ascii.eqb c quotechar = false ->
  parse_process_char (mkp IN_QUOTED_FIELD fs f) (Ch c)
  = add_char (mkp IN_QUOTED_FIELD fs f) c IN_QUOTED_FIELD.
Proof. intros Hq. unfold parse_process_char. cbn [state]. by rewrite Hq. Qed.

(** The characters of an unquoted field. *)
Lemma feed_plain s : forall fs f b b' k rest,
  existsb special s = false ->
  Z.of_nat (length f + length s) <= field_size_limit ->
  feed (mkp IN_FIELD fs f) b (s ++ k :: rest)
  = feed (mkp IN_FIELD fs (f ++ s)) b' (k :: rest).
Proof.
  induction s as [|c s IH]; intros fs f b b' k rest Hs Hlen.
  - by rewrite app_nil_r.
  - simpl in Hs. apply orb_false_iff in Hs as [Hc Hs].
    rewrite length_cons in Hlen.
    cbn [app feed]. rewrite step_in_field, add_char_ok by (done || lia).
    rewrite ends_line_plain by done.
    rewrite (IH fs (f ++ [c]) true b' k rest Hs)
      by (rewrite length_app; cbn [length]; lia).
    by rewrite <- app_assoc.
Qed.

(** An unquoted field that runs past the limit: the reader raises. *)
Lemma feed_plain_full s : forall fs f b rest,
  existsb special s = false ->
  Z.of_nat (length f) <= field_size_limit ->
  field_size_limit < Z.of_nat (length f + length s) ->
  feed (mkp IN_FIELD fs f) b (s ++ rest) = ([], Some CsvError).
Proof.
  induction s as [|c s IH]; intros fs f b rest Hs Hf Hlen.
  - cbn [length] in Hlen. lia.
  - simpl in Hs. apply orb_false_iff in Hs as [Hc Hs].
    rewrite length_cons in Hlen.
    cbn [app feed]. rewrite step_in_field by done.
    destruct (Z.leb_spec field_size_limit (Z.of_nat (length f))) as [Hfull|Hroom].
    + by rewrite add_char_full.
    + rewrite add_char_ok, ends_line_plain by done.
      apply IH; [done| |]; rewrite length_app; cbn [length]; lia.
Qed.

(** The characters of a quoted field, up to the closing quote. *)
Lemma feed_quoted s : forall fs f b rest,
  Z.of_nat (length f + length s) <= field_size_limit ->
  feed (mkp IN_QUOTED_FIELD fs f) b (copy_data s ++ quotechar :: rest)
  = feed (mkp QUOTE_IN_QUOTED_FIELD fs (f ++ s)) true rest.
Proof.
  induction s as [|c s IH]; intros fs f b rest Hlen.
  - rewrite app_nil_r. reflexivity.
  - rewrite length_cons in Hlen.
    assert (Hnext : Z.of_nat (length (f ++ [c]) + length s) <= field_size_limit)
      by (rewrite length_app; cbn [length]; lia).
    cbn [copy_data]. destruct (Ascii.eqb_spec c quotechar) as [->|Hq].
    + cbn [app feed].
      change (parse_process_char (mkp IN_QUOTED_FIELD fs f) (Ch quotechar))
        with (@inr exn _ (mkp QUOTE_IN_QUOTED_FIELD fs f)).
      change (File.ends_line quotechar (quotechar :: copy_data s ++ quotechar :: rest))
        with false. cbv iota. cbn [feed].
      change (parse_process_char (mkp QUOTE_IN_QUOTED_FIELD fs f) (Ch quotechar))
        with (add_char (mkp QUOTE_IN_QUOTED_FIELD fs f) quotechar IN_QUOTED_FIELD).
      rewrite add_char_ok by lia.
      change (File.ends_line quotechar (copy_data s ++ quotechar :: rest))
        with false. cbv iota.
      rewrite (IH fs (f ++ [quotechar]) true rest Hnext). by rewrite <- app_assoc.
    + apply Ascii.eqb_neq in Hq.
      cbn [app feed]. rewrite step_quoted, add_char_ok by (done || lia).
      unfold close_line.
      change (parse_process_char (mkp IN_QUOTED_FIELD fs (f ++ [c])) EOL)
        with (@inr exn _ (mkp IN_QUOTED_FIELD fs (f ++ [c]))).
      cbn [state]. rewrite bool_decide_false by done.
      destruct (File.ends_line c _);
        rewrite (IH fs (f ++ [c]) _ rest Hnext); by rewrite <- app_assoc.
Qed.

Lemma feed_field s fs b k rest :
  fits s ->
  feed (mkp START_FIELD fs []) b (join_append s ++ k :: rest)
  = feed (mkp (field_end s) fs s) b (k :: rest).
Proof.
  unfold fits. intros Hfit.
  unfold join_append, field_end. destruct (existsb special s) eqn:Hs.
  - cbn [app feed].
    change (parse_process_char (mkp START_FIELD fs []) (Ch quotechar))
      with (@inr exn _ (mkp IN_QUOTED_FIELD fs [])).
    rewrite <- app_assoc. cbn [app].
    change (File.ends_line quotechar (copy_data s ++ quotechar :: k :: rest))
      with false. cbv iota.
    by apply (feed_quoted s fs [] true).
  - destruct s as [|c s]; [reflexivity|].
    simpl in Hs. apply orb_false_iff in Hs as [Hc Hs].
    rewrite length_cons in Hfit.
    cbn [app feed]. rewrite step_start_field, add_char_ok, ends_line_plain
      by (done || (cbn [length]; unfold field_size_limit; lia)).
    apply (feed_plain s fs [c] true b k rest Hs). cbn [length]. lia.
Qed.

Lemma field_end_delimiter s fs :
  parse_process_char (mkp (field_end s) fs s) (Ch delimiter)
  = inr (mkp START_FIELD (fs ++ [s]) []).
Proof.
  unfold field_end. destruct (existsb special s); [reflexivity|].
  destruct s; reflexivity.
Qed.

Lemma field_end_cr s fs :
  parse_process_char (mkp (field_end s) fs s) (Ch File.CR)
  = inr (mkp EAT_CRNL (fs ++ [s]) []).
Proof.
  unfold field_end. destruct (existsb special s); [reflexivity|].
  destruct s; reflexivity.
Qed.

(** The fields of a record, from the second on. *)
Lemma feed_fields ss : forall s fs b rest,
  Forall fits (s :: ss) ->
  feed (mkp START_FIELD fs []) b
    (join (map join_append (s :: ss)) ++ lineterminator ++ rest)
  = let '(rs, e) := feed parse_reset false rest in
    ((fs ++ s :: ss) :: rs, e).
Proof.
  induction ss as [|s2 ss IH]; intros s fs b rest [Hs Hss]%Forall_cons.
  - cbn [map join]. unfold lineterminator. cbn [app].
    rewrite feed_field by done. cbn [feed]. rewrite field_end_cr.
    change (File.ends_line File.CR (File.LF :: rest)) with false. cbv iota.
    cbn [feed].
    change (parse_process_char (mkp EAT_CRNL (fs ++ [s]) []) (Ch File.LF))
      with (@inr exn _ (mkp EAT_CRNL (fs ++ [s]) [])).
    change (File.ends_line File.LF rest) with true. cbv iota.
    unfold close_line.
    change (parse_process_char (mkp EAT_CRNL (fs ++ [s]) []) EOL)
      with (@inr exn _ (mkp START_RECORD (fs ++ [s]) [])).
    cbn [state fields]. rewrite bool_decide_true by done.
    destruct (feed parse_reset false rest). reflexivity.
  - change (join (map join_append (s :: s2 :: ss)))
      with (join_append s ++ delimiter :: join (map join_append (s2 :: ss))).
    rewrite <- app_assoc. cbn [app].
    rewrite feed_field by done. cbn [feed]. rewrite field_end_delimiter.
    change (File.ends_line delimiter ?x) with false. cbv iota.
    rewrite (IH s2 (fs ++ [s]) true rest Hss).
    destruct (feed parse_reset false rest). by rewrite <- app_assoc.
Qed.

(** The first field of a record is read as any other. *)
Lemma feed_first_field s b k rest :
  feed parse_reset b (join_append s ++ k :: rest)
  = feed (mkp START_FIELD [] []) b (join_append s ++ k :: rest)
  \/ (s = [] /\ (k = File.CR \/ k = File.LF)).
Proof.
  unfold join_append. destruct (existsb special s) eqn:Hs; [by left|].
  destruct s as [|c s].
  - cbn [app feed]. unfold parse_reset, parse_process_char. cbn [state].
    unfold is_nl.
    destruct (Ascii.eqb_spec k File.LF) as [->|Hlf]; [right; by split; [|right]|].
    destruct (Ascii.eqb_spec k File.CR) as [->|Hcr]; [right; by split; [|left]|].
    by left.
  - left. simpl in Hs. apply orb_false_iff in Hs as [Hc Hs].
    cbn [app feed]. unfold parse_reset.
    by rewrite step_start_record, step_start_field by done.
Qed.

(** A record of two fields or more, read from the start of a record. *)
Lemma feed_record s1 s2 ss b rest :
  Forall fits (s1 :: s2 :: ss) ->
  feed parse_reset b
    (join (map join_append (s1 :: s2 :: ss)) ++ lineterminator ++ rest)
  = let '(rs, e) := feed parse_reset false rest in
    ((s1 :: s2 :: ss) :: rs, e).
Proof.
  intros Hfits.
  pose proof (feed_fields (s2 :: ss) s1 [] b rest Hfits) as Hf.
  cbn [app] in Hf. rewrite <- Hf. clear Hf.
  change (join (map join_append (s1 :: s2 :: ss)))
    with (join_append s1 ++ delimiter :: join (map join_append (s2 :: ss))).
  rewrite <- app_assoc. cbn [app].
  destruct (feed_first_field s1 b delimiter
              (join (map join_append (s2 :: ss)) ++ lineterminator ++ rest))
    as [Heq|[_ [Hk|Hk]]]; [done | discriminate Hk | discriminate Hk].
Qed.

Lemma join_two_nonempty s1 s2 ss : join (s1 :: s2 :: ss) <> [].
Proof.
  change (join (s1 :: s2 :: ss)) with (s1 ++ delimiter :: join (s2 :: ss)).
  intros Heq. by apply app_eq_nil in Heq as [_ ?].
Qed.

(** [writerow] then the reader: the texts of the values. *)
Lemma feed_writerow v1 v2 vs b rest :
  Forall fits (map field_text (v1 :: v2 :: vs)) ->
  feed parse_reset b (writerow (v1 :: v2 :: vs) ++ rest)
  = let '(rs, e) := feed parse_reset false rest in
    (map field_text (v1 :: v2 :: vs) :: rs, e).
Proof.
  intros Hfits. unfold writerow.
  pose proof (join_two_nonempty (join_append (field_text v1))
                (join_append (field_text v2))
                (map (fun v => join_append (field_text v)) vs)) as Hne.
  change (map (fun v => join_append (field_text v)) (v1 :: v2 :: vs))
    with (join_append (field_text v1) :: join_append (field_text v2)
          :: map (fun v => join_append (field_text v)) vs).
  destruct (join _) as [|a r] eqn:Hj; [done|].
  rewrite <- Hj, <- app_assoc.
  rewrite <- (map_map field_text join_append vs).
  by apply (feed_record (field_text v1) (field_text v2) (map field_text vs)).
Qed.

(** ** Saving and loading *)

Lemma fits_header : Forall fits FIELDNAMES.
Proof. repeat constructor; unfold fits, field_size_limit; cbn; lia. Qed.

Lemma fits_str_of_int n : Py.int_ok n -> fits (Py.str_of_int n).
Proof.
  unfold Py.int_ok, Py.str_of_int, fits. intros Hok.
  assert (H4300 : Py.int_max_str_digits + 1 <= field_size_limit) by done.
  destruct (Z.ltb_spec n 0) as [Hneg|Hpos].
  - pose proof (digits_length (- n)) as Hlen. rewrite length_cons.
    set (B := 10 ^ _) in *. lia.
  - pose proof (digits_length n) as Hlen. set (B := 10 ^ _) in *. lia.
Qed.

Lemma storable_fits book : storable book -> Forall fits (row_texts book).
Proof.
  intros (Hi & Ht & Ha & Hn & Hm). unfold row_texts, Book.to_dict.
  cbn [map field_text Py.str].
  repeat constructor; try done; by apply fits_str_of_int.
Qed.

Lemma feed_rows books :
  Forall storable books ->
  feed parse_reset false
    (concat (map (fun book => writerow (Book.to_dict book)) books))
  = (map row_texts books, None).
Proof.
  induction books as [|book books IH]; [reflexivity|].
  intros [Hb Hbs]%Forall_cons.
  cbn [map concat]. unfold Book.to_dict at 1.
  rewrite feed_writerow by (by apply storable_fits).
  by rewrite IH.
Qed.

Lemma reader_save_books self :
  Forall storable (Library.books self) ->
  reader (File.readlines (Library.save_books self))
  = (FIELDNAMES :: map row_texts (Library.books self), None).
Proof.
  intros Hst.
  rewrite reader_readlines. unfold Library.save_books, Library.header.
  unfold FIELDNAMES at 1. cbn [map].
  rewrite feed_writerow by apply fits_header.
  by rewrite feed_rows.
Qed.

Lemma load_row_texts book :
  storable book -> Library.load_row (row_texts book) = Some book.
Proof.
  intros (_ & _ & _ & Hn & Hm). destruct book as [i t a n m].
  unfold Library.load_row, Library.book_of_row, row_texts, Book.to_dict.
  cbn [map field_text Py.str Book.book_id Book.title Book.author
       Book.total_copies Book.available_copies] in *.
  unfold Csv.row_get. cbn [lookup list_lookup].
  unfold Book.__init__, Py.int. by rewrite !int_of_str_of_int.
Qed.

Lemma omap_load_rows books :
  Forall storable books ->
  omap Library.load_row (map row_texts books) = books.
Proof.
  induction books as [|b books IH]; [done|].
  intros [Hb Hbs]%Forall_cons.
  cbn [map omap]. unfold omap in IH. simpl. rewrite load_row_texts by done.
  simpl. f_equal. by apply IH.
Qed.

Lemma filter_rows books :
  filter (fun r : list pystr => r <> []) (map row_texts books) = map row_texts books.
Proof.
  induction books as [|b books IH]; [done|].
  cbn [map]. rewrite filter_cons_True by done. by f_equal.
Qed.

(** C2, amended.  For a catalog whose Records are [storable] (id, title and
    author of at most 131072 characters each, the field size limit of the
    [csv] module, and counts of at most 4300 digits, the limit of [int]), the
    file [save_books] writes is loaded by [_load_books] as the same Records,
    with the same id, title, author, total and available copies, in the same
    order (and the file is left as written). *)
Theorem save_then_load (self : Library.t) :
  Forall storable (Library.books self) ->
  Library._load_books (Some (Library.save_books self))
  = (Library.books self, Some (Library.save_books self)).
Proof.
  intros Hst. unfold Library._load_books, DictReader.
  rewrite reader_save_books by done. cbn [fst].
  rewrite filter_cons_True by done.
  by rewrite filter_rows, omap_load_rows.
Qed.

Lemma plain_repeat n : existsb special (repeat (chr 97) n) = false.
Proof. induction n as [|n IH]; [done|]. cbn [repeat existsb]. by rewrite IH. Qed.

(** A title past the limit: the reader raises in the row of the book. *)
Lemma feed_long_title i title (tail : list pystr) b rest :
  fits i ->
  existsb special title = false ->
  field_size_limit < Z.of_nat (length title) ->
  feed parse_reset b
    (join (map join_append (i :: title :: tail)) ++ rest)
  = ([], Some CsvError).
Proof.
  intros Hi Hplain Hlong.
  change (join (map join_append (i :: title :: tail)))
    with (join_append i ++ delimiter :: join (map join_append (title :: tail))).
  rewrite <- app_assoc. cbn [app].
  destruct (feed_first_field i b delimiter
              (join (map join_append (title :: tail)) ++ rest))
    as [->|[_ [Hk|Hk]]]; [|discriminate Hk|discriminate Hk].
  rewrite feed_field by done. cbn [feed]. rewrite field_end_delimiter.
  change (File.ends_line delimiter ?x) with false. cbv iota.
  assert (Hjoin : exists more,
            join (map join_append (title :: tail)) ++ rest = title ++ more).
  { cbn [map]. unfold join_append at 1. rewrite Hplain.
    destruct tail as [|t2 tail].
    - by exists rest.
    - exists (delimiter :: join (map join_append (t2 :: tail)) ++ rest).
      change (join (title :: map join_append (t2 :: tail)))
        with (title ++ delimiter :: join (map join_append (t2 :: tail))).
      by rewrite <- app_assoc. }
  destruct Hjoin as (more & ->).
  destruct title as [|c title]; [cbn in Hlong; unfold field_size_limit in Hlong; lia|].
  cbn [existsb] in Hplain. apply orb_false_iff in Hplain as [Hc Hplain].
  rewrite length_cons in Hlong.
  cbn [app feed]. rewrite step_start_field, add_char_ok, ends_line_plain
    by (done || (cbn [length]; unfold field_size_limit; lia)).
  apply feed_plain_full; [done| |]; cbn [app length]; unfold field_size_limit in *; lia.
Qed.

Lemma load_long_title i title a n m loans :
  fits i ->
  existsb special title = false ->
  field_size_limit < Z.of_nat (length title) ->
  fst (Library._load_books
         (Some (Library.save_books (Library.mk [Book.mk i title a n m] loans))))
  = [].
Proof.
  intros Hi Hplain Hlong.
  unfold Library._load_books, DictReader.
  rewrite reader_readlines. unfold Library.save_books, Library.header.
  unfold FIELDNAMES at 1. cbn [map Library.books concat].
  rewrite feed_writerow by apply fits_header.
  unfold writerow, Book.to_dict.
  cbn [Book.book_id Book.title Book.author Book.total_copies
       Book.available_copies].
  set (vals := [PyStr i; PyStr title; PyStr a; PyInt n; PyInt m]).
  pose proof (join_two_nonempty (join_append i) (join_append title)
                (map (fun v => join_append (field_text v))
                   [PyStr a; PyInt n; PyInt m])) as Hne.
  change (map (fun v => join_append (field_text v)) vals)
    with (join_append i :: join_append title
          :: map (fun v => join_append (field_text v))
               [PyStr a; PyInt n; PyInt m]) in *.
  destruct (join _) as [|x r] eqn:Hj; [done|]. rewrite <- Hj.
  rewrite <- (map_map field_text join_append [PyStr a; PyInt n; PyInt m]).
  change (join_append i :: join_append title
          :: map join_append (map field_text [PyStr a; PyInt n; PyInt m]))
    with (map join_append
            (i :: title :: map field_text [PyStr a; PyInt n; PyInt m])).
  rewrite <- app_assoc.
  by rewrite feed_long_title.
Qed.

(** C2, as the claim states it, fails: a catalog whose one Record has a title
    of 131073 characters is saved whole, and the reader raises [_csv.Error]
    in that row when the file is loaded: no Record comes back. *)
Lemma save_then_load_long_title :
  fst (Library._load_books (Some (Library.save_books Examples.long_catalog)))
  <> Library.books Examples.long_catalog.
Proof.
  unfold Examples.long_catalog. rewrite load_long_title.
  - discriminate.
  - unfold fits, field_size_limit. cbn. lia.
  - apply plain_repeat.
  - unfold Examples.long_title. rewrite repeat_length. unfold field_size_limit. lia.
Qed.

Lemma save_then_load_witness :
  Library._load_books (Some (Library.save_books Examples.one_book))
  = (Library.books Examples.one_book, Some (Library.save_books Examples.one_book)).
Proof.
  apply (save_then_load Examples.one_book).
  repeat constructor; unfold fits, Csv.field_size_limit, Py.int_ok; cbn; try lia.
Defined.

(** *** A file of rows *)

Lemma field_text_str (row : list pystr) : map field_text (map PyStr row) = row.
Proof. induction row as [|s row IH]; [done|]. cbn. by f_equal. Qed.

Lemma feed_row_lines rows :
  Forall row_ok rows ->
  feed parse_reset false (file_of_rows rows) = (rows, None).
Proof.
  unfold file_of_rows. induction rows as [|row rows IH]; [reflexivity|].
  intros [[Hlen Hfits] Hrows]%Forall_cons. cbn [map concat]. unfold row_line at 1.
  destruct row as [|s1 [|s2 ss]]; [cbn in Hlen; lia | cbn in Hlen; lia |].
  change (map PyStr (s1 :: s2 :: ss))
    with (PyStr s1 :: PyStr s2 :: map PyStr ss).
  rewrite feed_writerow.
  - rewrite (IH Hrows).
    change (PyStr s1 :: PyStr s2 :: map PyStr ss)
      with (map PyStr (s1 :: s2 :: ss)).
    by rewrite field_text_str.
  - change (PyStr s1 :: PyStr s2 :: map PyStr ss)
      with (map PyStr (s1 :: s2 :: ss)).
    by rewrite field_text_str.
Qed.

(** The file of a first row and of [rows]: the first row is passed over, and
    the Records are those the other rows construct, in their order. *)
Lemma load_rows_file first rows :
  Forall row_ok (first :: rows) ->
  Library._load_books (Some (file_of_rows (first :: rows)))
  = (omap Library.load_row rows, Some (file_of_rows (first :: rows))).
Proof.
  intros Hok. unfold Library._load_books, DictReader.
  rewrite reader_readlines, feed_row_lines by done. cbn [fst].
  assert (Hne : forall rs : list (list pystr),
            Forall row_ok rs -> filter (fun r : list pystr => r <> []) rs = rs).
  { induction rs as [|r rs IH]; [done|]. intros [[Hlen _] Hrs]%Forall_cons.
    rewrite filter_cons_True by (destruct r; [cbn in Hlen; lia | done]).
    f_equal. by apply IH. }
  by rewrite Hne.
Qed.



Section BookLemmas.

Lemma check_out_ok b :
  Book.copies_ok b -> Book.copies_ok (snd (Book.check_out b)).
Proof.
  unfold Book.copies_ok, Book.check_out.
  destruct (Z.ltb_spec 0 (Book.available_copies b)); simpl; lia.
Qed.

Lemma check_in_ok b :
  Book.copies_ok b -> Book.copies_ok (snd (Book.check_in b)).
Proof.
  unfold Book.copies_ok, Book.check_in.
  destruct (Z.ltb_spec (Book.available_copies b) (Book.total_copies b)); simpl; lia.
Qed.

Lemma check_out_frame b : frame (snd (Book.check_out b)) = frame b.
Proof. unfold Book.check_out. by destruct (0 <? _). Qed.

Lemma check_in_frame b : frame (snd (Book.check_in b)) = frame b.
Proof. unfold Book.check_in. by destruct (_ <? _). Qed.

Lemma frame_insert (l : list Book.t) : forall i b b',
  l !! i = Some b -> frame b' = frame b ->
  map frame (<[i := b']> l) = map frame l.
Proof.
  induction l as [|x l IH]; intros [|i] b b' Hl Hf; simpl in *; try done.
  - inversion Hl; subst. by rewrite Hf.
  - f_equal. by apply (IH i b).
Qed.

Lemma set_book_same self i b :
  Library.books self !! i = Some b -> Library.set_book self i b = self.
Proof.
  intros Hl. destruct self as [bs m]. unfold Library.set_book. simpl in *.
  by rewrite list_insert_id.
Qed.

Lemma find_book_lookup self q i b :
  Library._find_book self q = Some (i, b) -> Library.books self !! i = Some b.
Proof. unfold Library._find_book. intros H. by apply list_find_Some in H as [? _]. Qed.

End BookLemmas.

(** ** Record: [check_out] and [check_in] *)


(** C7, as the claim states it, fails: with no copy available [check_out]
    fails and leaves the count, and the [check_in] that follows adds one. *)
Lemma check_out_check_in_not_restored :
  ~ (forall b : Book.t,
       Book.available_copies (snd (Book.check_in (snd (Book.check_out b))))
       = Book.available_copies b).
Proof. intros H. specialize (H Examples.dune_out). discriminate H. Qed.

(** C7, amended.  When a copy is available and the count is within the
    copies owned, [check_out] succeeds, the [check_in] that follows succeeds,
    and the Record is back as it was. *)
Theorem check_out_check_in_restores (b : Book.t) :
  0 < Book.available_copies b <= Book.total_copies b ->
  fst (Book.check_out b) = true
  /\ fst (Book.check_in (snd (Book.check_out b))) = true
  /\ snd (Book.check_in (snd (Book.check_out b))) = b.
Proof.
  intros [Hpos Hle]. unfold Book.check_out.
  destruct (Z.ltb_spec 0 (Book.available_copies b)); [|lia].
  unfold Book.check_in. simpl.
  destruct (Z.ltb_spec (Book.available_copies b - 1) (Book.total_copies b)); [|lia].
  simpl. repeat split. destruct b; unfold Book.set_available; simpl. f_equal. lia.
Qed.

Lemma check_out_check_in_restores_witness :
  0 < Book.available_copies Examples.dune <= Book.total_copies Examples.dune
  /\ snd (Book.check_in (snd (Book.check_out Examples.dune))) = Examples.dune.
Proof.
  split; [simpl; lia|].
  apply (check_out_check_in_restores Examples.dune). simpl. lia.
Defined.

(** ** Record construction *)

(** C10.  When both counts convert to integers the Record stores them as
    they are; the counts are zeroed exactly when a conversion raises
    [ValueError]; and a row with one copy owned and five available gives a
    Record with [available_copies] 5 and [total_copies] 1. *)
Theorem init_stores_verbatim (book_id title author : pystr) (tc ac : pyval) :
  (forall n m, Py.int tc = inr n -> Py.int ac = inr m ->
     Book.__init__ book_id title author tc ac
     = inr (Book.mk book_id title author n m))
  /\ (Py.int tc = inl ValueError
      \/ (exists n, Py.int tc = inr n /\ Py.int ac = inl ValueError) ->
      Book.__init__ book_id title author tc ac
      = inr (Book.mk book_id title author 0 0))
  /\ (forall b, Book.__init__ book_id title author tc ac = inr b ->
        (exists n m, Py.int tc = inr n /\ Py.int ac = inr m
                     /\ b = Book.mk book_id title author n m)
        \/ ((Py.int tc = inl ValueError
             \/ exists n, Py.int tc = inr n /\ Py.int ac = inl ValueError)
            /\ b = Book.mk book_id title author 0 0))
  /\ Library.book_of_row [lit "1"; lit "T"; lit "A"; lit "1"; lit "5"]
     = inr (Book.mk (lit "1") (lit "T") (lit "A") 1 5).
Proof.
  unfold Book.__init__. repeat split.
  - by intros n m -> ->.
  - intros [-> | (n & -> & ->)]; reflexivity.
  - intros b. destruct (Py.int tc) as [[]|n] eqn:Ht; try done.
    + intros [= <-]. right. split; [by left | done].
    + destruct (Py.int ac) as [[]|m] eqn:Ha; try done.
      * intros [= <-]. right. split; [right; by exists n | done].
      * intros [= <-]. left. by exists n, m.
Qed.

(** ** Catalog: issue and return *)

(** C5.  When the query resolves to a book with no copy available,
    [issue_book] reports that all copies are checked out, which is not the
    report of a missing book, and the catalog (every Record, every loan
    entry) is as it was. *)
Theorem issue_none_available (self : Library.t) (line : pystr) (now1 now2 : Z)
    (i : nat) (book : Book.t) :
  Library._find_book self (Py.strip line) = Some (i, book) ->
  Book.available_copies book = 0 ->
  Library.issue_book self line now1 now2
  = (self, Library.AllCheckedOut (Book.title book))
  /\ Library.AllCheckedOut (Book.title book) <> Library.BookNotFound.
Proof.
  intros Hf Ha. split; [|done].
  unfold Library.issue_book. rewrite Hf.
  unfold Book.check_out. rewrite Ha. simpl.
  by rewrite (set_book_same self i book (find_book_lookup _ _ _ _ Hf)).
Qed.

Lemma issue_none_available_witness :
  Library.issue_book Examples.all_out (lit "dune") 5 7
  = (Examples.all_out, Library.AllCheckedOut (lit "Dune")).
Proof.
  apply (issue_none_available Examples.all_out (lit "dune") 5 7 0%nat
           Examples.dune_out); reflexivity.
Defined.

Lemma days_between_spec now due :
  due < now -> overdue_days now due (Library.days_between now due).
Proof.
  intros Hlt. unfold overdue_days, Library.days_between.
  destruct (Z.ltb_spec due now); [|lia].
  assert (HD : 0 < Library.DAY) by reflexivity.
  pose proof (Z.div_mod (now - due) Library.DAY ltac:(lia)) as Hdm.
  pose proof (Z.mod_pos_bound (now - due) Library.DAY HD) as Hm.
  split; [apply Z.div_pos; lia | lia].
Qed.

(** C3.  When the query resolves to a book with a loan entry and [check_in]
    succeeds, [return_book] removes the entry of that id (the others stay)
    and reports the fine [max(0, overdue days) * 10], the overdue days being
    the whole days by which the time of the return exceeds the due time, and
    zero when it does not. *)
Theorem return_fine (self : Library.t) (line : pystr) (now : Z)
    (i : nat) (book : Book.t) (issue_date due_date : Z) :
  Library._find_book self (Py.strip line) = Some (i, book) ->
  Library.issued_books self !! Book.book_id book = Some (issue_date, due_date) ->
  fst (Book.check_in book) = true ->
  exists d,
    overdue_days now due_date d
    /\ Library.reported_fine (snd (Library.return_book self line now))
       = Some (Z.max 0 d * 10)
    /\ Library.issued_books (fst (Library.return_book self line now))
       = delete (Book.book_id book) (Library.issued_books self)
    /\ Library.issued_books (fst (Library.return_book self line now))
         !! Book.book_id book = None.
Proof.
  intros Hf Hl Hin. unfold Library.return_book. rewrite Hf, Hl.
  destruct (Book.check_in book) as [ok book'] eqn:Hci. simpl in Hin. subst ok.
  assert (Hid : Book.book_id book' = Book.book_id book).
  { pose proof (check_in_frame book) as Hfr. rewrite Hci in Hfr.
    unfold frame in Hfr. simpl in Hfr. congruence. }
  destruct (Z.ltb_spec due_date now) as [Hlt|Hge].
  - exists (Library.days_between now due_date).
    pose proof (days_between_spec now due_date Hlt) as Hd.
    split; [done|]. simpl. rewrite Hid.
    split; [|split; [done | apply lookup_delete_eq]].
    f_equal. unfold overdue_days in Hd.
    destruct (due_date <? now); lia.
  - exists 0. simpl. rewrite Hid.
    split; [|split; [done | split; [done | apply lookup_delete_eq]]].
    unfold overdue_days. destruct (Z.ltb_spec due_date now); [lia | done].
Qed.

Lemma return_fine_witness :
  exists d,
    overdue_days (20 * Examples.day) (14 * Examples.day) d
    /\ Library.reported_fine
         (snd (Library.return_book Examples.lent (lit "Dune") (20 * Examples.day)))
       = Some (Z.max 0 d * 10).
Proof.
  destruct (return_fine Examples.lent (lit "Dune") (20 * Examples.day) 0%nat
              (Book.set_available Examples.dune 2) 0 (14 * Examples.day))
    as (d & Hd & Hfine & _).
  - reflexivity.
  - reflexivity.
  - reflexivity.
  - exists d. split; [exact Hd | exact Hfine].
Defined.

Section Frame.

Lemma issue_book_books self line now1 now2 :
  Library.books (fst (Library.issue_book self line now1 now2)) = Library.books self
  \/ exists i book,
       Library._find_book self (Py.strip line) = Some (i, book)
       /\ Library.books (fst (Library.issue_book self line now1 now2))
          = <[i := snd (Book.check_out book)]> (Library.books self).
Proof.
  unfold Library.issue_book.
  destruct (Library._find_book self (Py.strip line)) as [[i book]|] eqn:Hf;
    [|by left].
  right. exists i, book. split; [done|].
  destruct (Book.check_out book) as [[] book']; reflexivity.
Qed.

Lemma return_book_books self line now :
  Library.books (fst (Library.return_book self line now)) = Library.books self
  \/ exists i book,
       Library._find_book self (Py.strip line) = Some (i, book)
       /\ Library.books (fst (Library.return_book self line now))
          = <[i := snd (Book.check_in book)]> (Library.books self).
Proof.
  unfold Library.return_book.
  destruct (Library._find_book self (Py.strip line)) as [[i book]|] eqn:Hf;
    [|by left].
  destruct (Library.issued_books self !! Book.book_id book) as [[t0 t1]|].
  - right. exists i, book. split; [done|].
    destruct (Book.check_in book) as [[] book']; [|reflexivity].
    simpl. by destruct (t1 <? now).
  - destruct (Book.available_copies book <? Book.total_copies book);
      [|by left].
    right. exists i, book. split; [done|].
    by destruct (Book.check_in book).
Qed.

Lemma issue_book_loans self line now1 now2 k :
  Library.issued_books (fst (Library.issue_book self line now1 now2)) !! k
  = Library.issued_books self !! k
  \/ exists i book,
       Library._find_book self (Py.strip line) = Some (i, book)
       /\ k = Book.book_id book.
Proof.
  unfold Library.issue_book.
  destruct (Library._find_book self (Py.strip line)) as [[i book]|] eqn:Hf;
    [|by left].
  pose proof (check_out_frame book) as Hfr.
  destruct (Book.check_out book) as [[] book']; [|by left].
  simpl. destruct (decide (k = Book.book_id book)) as [->|Hne].
  - right. by exists i, book.
  - left. apply lookup_insert_ne. unfold frame in Hfr. simpl in Hfr. congruence.
Qed.

Lemma return_book_loans self line now k :
  Library.issued_books (fst (Library.return_book self line now)) !! k
  = Library.issued_books self !! k
  \/ exists i book,
       Library._find_book self (Py.strip line) = Some (i, book)
       /\ k = Book.book_id book.
Proof.
  unfold Library.return_book.
  destruct (Library._find_book self (Py.strip line)) as [[i book]|] eqn:Hf;
    [|by left].
  pose proof (check_in_frame book) as Hfr.
  destruct (Library.issued_books self !! Book.book_id book) as [[t0 t1]|].
  - destruct (Book.check_in book) as [[] book']; [|by left].
    destruct (decide (k = Book.book_id book)) as [->|Hne].
    + right. by exists i, book.
    + left. unfold frame in Hfr. simpl in Hfr.
      destruct (t1 <? now); simpl; apply lookup_delete_ne; congruence.
  - left. destruct (_ <? _); [|done]. by destruct (Book.check_in book).
Qed.

End Frame.

(** C9.  [issue_book] and [return_book] leave the id, title, author and
    total of every Record, in the order of the collection; a Record at a
    place other than the one the query resolves to is as it was; and a loan
    entry under a key other than the id of the resolved Record is as it
    was. *)
Theorem issue_return_frame (self : Library.t) (line : pystr) (now1 now2 : Z) :
  let resolved := Library._find_book self (Py.strip line) in
  let issued := fst (Library.issue_book self line now1 now2) in
  let returned := fst (Library.return_book self line now1) in
  map frame (Library.books issued) = map frame (Library.books self)
  /\ map frame (Library.books returned) = map frame (Library.books self)
  /\ (forall j : nat,
        (forall book, resolved <> Some (j, book)) ->
        Library.books issued !! j = Library.books self !! j
        /\ Library.books returned !! j = Library.books self !! j)
  /\ (forall k : pystr,
        (forall j book, resolved = Some (j, book) -> Book.book_id book <> k) ->
        Library.issued_books issued !! k = Library.issued_books self !! k
        /\ Library.issued_books returned !! k = Library.issued_books self !! k).
Proof.
  intros resolved issued returned. subst resolved issued returned.
  repeat split.
  - destruct (issue_book_books self line now1 now2) as [->|(i & b & Hf & ->)];
      [done|].
    apply (frame_insert _ i b); [by eapply find_book_lookup|].
    apply check_out_frame.
  - destruct (return_book_books self line now1) as [->|(i & b & Hf & ->)];
      [done|].
    apply (frame_insert _ i b); [by eapply find_book_lookup|].
    apply check_in_frame.
  - destruct (issue_book_books self line now1 now2) as [->|(i & b & Hf & ->)];
      [done|].
    apply list_lookup_insert_ne. intros ->. by apply (H b).
  - destruct (return_book_books self line now1) as [->|(i & b & Hf & ->)];
      [done|].
    apply list_lookup_insert_ne. intros ->. by apply (H b).
  - destruct (issue_book_loans self line now1 now2 k) as [->|(i & b & Hf & ->)];
      [done|].
    by destruct (H i b Hf).
  - destruct (return_book_loans self line now1 k) as [->|(i & b & Hf & ->)];
      [done|].
    by destruct (H i b Hf).
Qed.

(** ** The invariant on the copy counts *)





(** ** The empty query *)

Lemma contains_empty s : Py.contains [] s = true.
Proof. by destruct s. Qed.

(** C4.  [search_book] returns at once on an empty query, and nothing is
    printed.  [issue_book] and [return_book] have no such test: the empty
    string is in every title, so [_find_book] resolves the empty query to the
    first book of the catalog, which is then checked out with a loan entry
    written, or checked in with its loan entry removed. *)
Theorem empty_query_takes_first_book :
  (forall self : Library.t, Library.search_book self [] = None)
  /\ (forall b bs loans,
        Library._find_book (Library.mk (b :: bs) loans) (Py.strip [])
        = Some (0%nat, b))
  /\ Library.issue_book Examples.one_book [] 0 0
     = (Examples.lent, Library.Issued (lit "Dune") (14 * Examples.day))
  /\ Library.return_book Examples.lent [] 0
     = (Examples.one_book, Library.ReturnedOnTime (lit "Dune")).
Proof.
  split; [done|]. split; [|split].
  - intros b bs loans. unfold Library._find_book. simpl.
    unfold Library.matches. simpl.
    rewrite contains_empty, orb_true_r.
    rewrite decide_True by done. reflexivity.
  - vm_compute. reflexivity.
  - vm_compute. reflexivity.
Qed.

(** ** Identifiers *)





Lemma next_id_loop_fresh existing draws new_id rest :
  Library.next_id_loop existing draws = Some (new_id, rest) ->
  (new_id ∉ existing) /\ exists r, r ∈ draws /\ new_id = drawn_id r.
Proof.
  unfold drawn_id.
  induction draws as [|r draws IH]; cbn [Library.next_id_loop]; [done|].
  destruct (decide (_ ∉ existing)) as [Hfree|Hin].
  - intros [= <- <-]. split; [done|]. exists r. split; [by left | done].
  - intros H. destruct (IH H) as (Hf & r' & Hr' & ->).
    split; [done|]. exists r'. split; [by right | done].
Qed.






(** ** Scenarios of the specification *)

(** An empty catalog, a book added with three copies, issued by title and
    returned the same day: two copies left and a loan due fourteen days
    later, then no fine and no loan. *)
Example scenario_issue_and_return :
  let empty := Library.mk [] ∅ in
  let added := Library.mk [Examples.dune] ∅ in
  Library.add_book empty [0] (lit "Dune") (lit "Herbert") [lit "3"]
  = Some (inr (added, lit "1000"))
  /\ Library.issue_book added (lit "Dune") 0 0
     = (Examples.lent, Library.Issued (lit "Dune") (14 * Examples.day))
  /\ Library.return_book Examples.lent (lit "Dune") (Examples.day / 2)
     = (added, Library.ReturnedOnTime (lit "Dune")).
Proof. vm_compute. repeat split. Qed.

(** Returned twenty days after the issue: six days overdue, fine 60. *)
Example scenario_overdue :
  snd (Library.return_book Examples.lent (lit "Dune") (20 * Examples.day))
  = Library.ReturnedOverdue (lit "Dune") 6 60.
Proof. vm_compute. reflexivity. Qed.

(** A row that lacks its last column is skipped: [int(None)] raises
    [TypeError].  A row whose count is not a number is kept, zeroed. *)
Example scenario_short_row :
  fst (Library._load_books
         (Some (Library.header
                ++ lit "1000,Dune,Herbert,3,2" ++ Csv.lineterminator
                ++ lit "1001,Emma,Austen,3" ++ Csv.lineterminator
                ++ lit "1002,Ulysses,Joyce,many,2" ++ Csv.lineterminator)))
  = [Book.mk (lit "1000") (lit "Dune") (lit "Herbert") 3 2;
     Book.mk (lit "1002") (lit "Ulysses") (lit "Joyce") 0 0].
Proof. vm_compute. reflexivity. Qed.

(** The search of the specification: by substring, whatever the case. *)
Example scenario_search :
  Library.search_book
    (Library.mk [Book.mk (lit "1234") (lit "The Lord of the Rings")
                   (lit "Tolkien") 1 1] ∅) (lit "lord")
  = Some [Book.mk (lit "1234") (lit "The Lord of the Rings") (lit "Tolkien") 1 1].
Proof. vm_compute. reflexivity. Qed.

(** * Further properties *)

Lemma matches_frame q b b' :
  frame b' = frame b -> Library.matches q b' = Library.matches q b.
Proof. unfold frame, Library.matches. intros [= -> -> _ _]. reflexivity. Qed.

Lemma find_book_set_book self q i b b' :
  Library._find_book self q = Some (i, b) -> frame b' = frame b ->
  Library._find_book (Library.set_book self i b') q = Some (i, b').
Proof.
  unfold Library._find_book. intros Hf Hfr.
  apply list_find_Some in Hf as (Hl & Hm & Hfirst).
  apply list_find_Some. simpl. split; [|split].
  - apply list_lookup_insert_eq. by eapply lookup_lt_Some.
  - by rewrite (matches_frame _ b b').
  - intros j y Hj Hlt. rewrite list_lookup_insert_ne in Hj by lia.
    by apply (Hfirst j).
Qed.

Lemma issue_success (self : Library.t) (line : pystr) (now1 now2 : Z)
    (i : nat) (book : Book.t) :
  Library._find_book self (Py.strip line) = Some (i, book) ->
  0 < Book.available_copies book ->
  Library.issue_book self line now1 now2
  = (Library.mk
       (<[i := Book.set_available book (Book.available_copies book - 1)]>
          (Library.books self))
       (<[Book.book_id book := (now2, now1 + 14 * Library.DAY)]>
          (Library.issued_books self)),
     Library.Issued (Book.title book) (now1 + 14 * Library.DAY)).
Proof.
  intros Hf Ha. unfold Library.issue_book. rewrite Hf.
  unfold Book.check_out. destruct (Z.ltb_spec 0 (Book.available_copies book)); [|lia].
  reflexivity.
Qed.

Lemma lower_char_idemp c : Py.lower_char (Py.lower_char c) = Py.lower_char c.
Proof. destruct c as [[] [] [] [] [] [] [] []]; reflexivity. Qed.

Lemma lower_idemp s : Py.lower (Py.lower s) = Py.lower s.
Proof.
  unfold Py.lower. induction s as [|c s IH]; [done|].
  cbn [map]. by rewrite lower_char_idemp, IH.
Qed.

(** [_find_book] does not tell the case of the query: the query in lower case
    resolves to the same book.  The book it returns is in the catalog at the
    place returned, its id is the query or its title holds the query (both
    in lower case), and no book before it in the catalog has either. *)
Theorem find_book_ignores_case (self : Library.t) (query : pystr) :
  Library._find_book self (Py.lower query) = Library._find_book self query
  /\ (forall i book,
        Library._find_book self query = Some (i, book) ->
        Library.books self !! i = Some book
        /\ (Py.lower query = Py.lower (Book.book_id book)
            \/ Py.contains (Py.lower query) (Py.lower (Book.title book)) = true)
        /\ forall j other,
             (j < i)%nat -> Library.books self !! j = Some other ->
             Py.lower query <> Py.lower (Book.book_id other)
             /\ Py.contains (Py.lower query) (Py.lower (Book.title other)) = false).
Proof.
  split.
  - unfold Library._find_book. by rewrite lower_idemp.
  - intros i book Hf. unfold Library._find_book in Hf.
    apply list_find_Some in Hf as (Hl & Hm & Hfirst).
    split; [done|]. split.
    + unfold Library.matches, Py.str_eqb in Hm.
      apply orb_true_iff in Hm as [Hm|Hm]; [left | by right].
      by apply bool_decide_eq_true in Hm.
    + intros j other Hlt Hj. specialize (Hfirst j other Hj Hlt).
      unfold Library.matches, Py.str_eqb in Hfirst.
      apply not_true_is_false, orb_false_iff in Hfirst as [H1 H2].
      split; [|done]. by apply bool_decide_eq_false in H1.
Qed.

(** When no book of the catalog has the query as its id or in its title,
    [issue_book] and [return_book] report that the book was not found and
    return the catalog as it was. *)
Theorem lookup_miss (self : Library.t) (line : pystr) (now1 now2 : Z) :
  (forall book, book ∈ Library.books self ->
     Library.matches (Py.lower (Py.strip line)) book = false) ->
  Library.issue_book self line now1 now2 = (self, Library.BookNotFound)
  /\ Library.return_book self line now1 = (self, Library.BookNotFound).
Proof.
  intros Hno.
  assert (Hf : Library._find_book self (Py.strip line) = None).
  { unfold Library._find_book. apply list_find_None, Forall_forall.
    intros b Hb. rewrite (Hno b Hb). done. }
  unfold Library.issue_book, Library.return_book. by rewrite Hf.
Qed.

Lemma lookup_miss_witness :
  Library.issue_book Examples.one_book (lit "emma") 0 0
  = (Examples.one_book, Library.BookNotFound).
Proof.
  apply (lookup_miss Examples.one_book (lit "emma") 0 0).
  intros book Hb. apply list_elem_of_singleton in Hb. subst book. reflexivity.
Defined.

Lemma starts_with_refl s : Py.starts_with s s = true.
Proof. induction s as [|c s IH]; [done|]. simpl. by rewrite Ascii.eqb_refl. Qed.

Lemma contains_refl s : Py.contains s s = true.
Proof. destruct s; simpl; [done|]. by rewrite Ascii.eqb_refl, starts_with_refl. Qed.

(** Whatever book a query that is not empty resolves to in [_find_book] is
    among the books [search_book] prints for it, and those are books of the
    catalog, in its order. *)
Theorem search_finds_resolved (self : Library.t) (line : pystr)
    (i : nat) (book : Book.t) :
  Py.strip line <> [] ->
  Library._find_book self (Py.strip line) = Some (i, book) ->
  exists found,
    Library.search_book self line = Some found
    /\ book ∈ found
    /\ found `sublist_of` Library.books self.
Proof.
  intros Hne Hf. unfold Library.search_book.
  destruct (Py.strip line) as [|c q] eqn:Hq; [done|].
  eexists. split; [reflexivity|]. split; [|apply sublist_filter].
  unfold Library._find_book in Hf.
  apply list_find_Some in Hf as (Hl & Hm & _).
  apply list_elem_of_filter. split; [|by eapply list_elem_of_lookup_2].
  unfold Library.matches, Py.str_eqb in Hm.
  apply orb_true_iff in Hm as [Hm|Hm].
  - apply bool_decide_eq_true in Hm. rewrite Hm, contains_refl. done.
  - rewrite Hm. by rewrite orb_true_r.
Qed.

Lemma search_finds_resolved_witness :
  exists found,
    Library.search_book Examples.one_book (lit " DUNE ") = Some found
    /\ Examples.dune ∈ found.
Proof.
  destruct (search_finds_resolved Examples.one_book (lit " DUNE ") 0%nat
              Examples.dune) as (found & Hs & Hin & _).
  - vm_compute. discriminate.
  - reflexivity.
  - exists found. split; [exact Hs | exact Hin].
Defined.

Lemma return_no_loan (self : Library.t) (line : pystr) (now : Z)
    (i : nat) (book : Book.t) :
  Library._find_book self (Py.strip line) = Some (i, book) ->
  Library.issued_books self !! Book.book_id book = None ->
  Library.return_book self line now
  = if Book.available_copies book <? Book.total_copies book
    then (Library.mk
            (<[i := Book.set_available book (Book.available_copies book + 1)]>
               (Library.books self))
            (Library.issued_books self),
          Library.NotRecordedAsIssued (Book.book_id book) true)
    else (self, Library.NotRecordedAsIssued (Book.book_id book) false).
Proof.
  intros Hf Hl. unfold Library.return_book. rewrite Hf, Hl.
  unfold Book.check_in.
  by destruct (Book.available_copies book <? Book.total_copies book).
Qed.

(** When the query resolves to a book with a loan entry and as many copies
    available as owned (or more), [return_book] reports that it cannot
    return it; the catalog, loan entry included, is as it was. *)
Theorem return_all_in (self : Library.t) (line : pystr) (now : Z)
    (i : nat) (book : Book.t) (loan : Z * Z) :
  Library._find_book self (Py.strip line) = Some (i, book) ->
  Library.issued_books self !! Book.book_id book = Some loan ->
  Book.total_copies book <= Book.available_copies book ->
  Library.return_book self line now
  = (self, Library.CannotReturn (Book.title book)).
Proof.
  intros Hf Hl Hfull. unfold Library.return_book. rewrite Hf, Hl.
  destruct loan as [t0 t1]. unfold Book.check_in.
  destruct (Z.ltb_spec (Book.available_copies book) (Book.total_copies book));
    [lia|].
  by rewrite (set_book_same self i book (find_book_lookup _ _ _ _ Hf)).
Qed.

Lemma return_all_in_witness :
  let self := Library.mk [Examples.dune] {[ lit "1000" := (0, 5) ]} in
  Library.return_book self (lit "dune") 9
  = (self, Library.CannotReturn (lit "Dune")).
Proof.
  apply (return_all_in (Library.mk [Examples.dune] {[ lit "1000" := (0, 5) ]})
           (lit "dune") 9 0%nat Examples.dune (0, 5)).
  - reflexivity.
  - reflexivity.
  - simpl. lia.
Defined.

Lemma insert_insert_book (l : list Book.t) i b b' :
  l !! i = Some b -> <[i := b]> (<[i := b']> l) = l.
Proof.
  intros Hl. rewrite list_insert_insert_eq. by apply list_insert_id.
Qed.

Lemma return_with_loan self line now i book t0 t1 :
  Library._find_book self (Py.strip line) = Some (i, book) ->
  Library.issued_books self !! Book.book_id book = Some (t0, t1) ->
  Book.available_copies book < Book.total_copies book ->
  Library.return_book self line now
  = (Library.mk
       (<[i := Book.set_available book (Book.available_copies book + 1)]>
          (Library.books self))
       (delete (Book.book_id book) (Library.issued_books self)),
     if t1 <? now
     then Library.ReturnedOverdue (Book.title book)
            (Library.days_between now t1) (Library.days_between now t1 * 10)
     else Library.ReturnedOnTime (Book.title book)).
Proof.
  intros Hf Hl Hlt. unfold Library.return_book. rewrite Hf, Hl.
  unfold Book.check_in.
  destruct (Z.ltb_spec (Book.available_copies book) (Book.total_copies book));
    [|lia].
  by destruct (t1 <? now).
Qed.

Lemma set_available_back book n :
  Book.set_available (Book.set_available book n) (Book.available_copies book) = book.
Proof. by destruct book. Qed.

(** A book with a copy available, within the copies owned, that is issued and
    returned under the same query: the Records are as before the issue, the
    loan entry of its id is gone, and a return no later than fourteen days
    after the issue is reported on time. *)
Theorem issue_then_return (self : Library.t) (line : pystr) (now1 now2 now3 : Z)
    (i : nat) (book : Book.t) :
  Library._find_book self (Py.strip line) = Some (i, book) ->
  0 < Book.available_copies book <= Book.total_copies book ->
  let issued := fst (Library.issue_book self line now1 now2) in
  let returned := Library.return_book issued line now3 in
  Library.books (fst returned) = Library.books self
  /\ Library.issued_books (fst returned)
     = delete (Book.book_id book) (Library.issued_books self)
  /\ (now3 <= now1 + 14 * Library.DAY ->
      snd returned = Library.ReturnedOnTime (Book.title book)).
Proof.
  intros Hf [Hpos Hle] issued returned. subst issued returned.
  rewrite (issue_success self line now1 now2 i book Hf Hpos). cbn [fst].
  set (out := Book.set_available book (Book.available_copies book - 1)).
  set (s1 := Library.mk _ _).
  assert (Hf1 : Library._find_book s1 (Py.strip line) = Some (i, out)).
  { apply (find_book_set_book self _ i book out Hf). reflexivity. }
  rewrite (return_with_loan s1 line now3 i out now2 (now1 + 14 * Library.DAY) Hf1);
    [|apply lookup_insert_eq | simpl; lia].
  cbn [fst snd Library.books Library.issued_books s1].
  replace (Book.available_copies out + 1) with (Book.available_copies book)
    by (simpl; lia).
  unfold out at 1. rewrite set_available_back.
  split; [|split].
  - apply insert_insert_book. by eapply find_book_lookup.
  - apply delete_insert_eq.
  - intros Hnow. destruct (Z.ltb_spec (now1 + 14 * Library.DAY) now3); [lia|done].
Qed.

Lemma issue_then_return_witness :
  Library.books
    (fst (Library.return_book
            (fst (Library.issue_book Examples.one_book (lit "dune") 0 0))
            (lit "dune") 5))
  = Library.books Examples.one_book.
Proof.
  apply (issue_then_return Examples.one_book (lit "dune") 0 0 5 0%nat Examples.dune).
  - reflexivity.
  - simpl. lia.
Defined.

(** When the query resolves to a book with a copy available, [issue_book]
    reports the issue with the due time fourteen days after the first reading
    of the clock, leaves the book at its place with one copy less, and writes
    the loan entry of its id, over whatever entry the id had: the second
    reading of the clock and the due time.  The query still resolves to the
    same place. *)
Theorem issue_available (self : Library.t) (line : pystr) (now1 now2 : Z)
    (i : nat) (book : Book.t) :
  Library._find_book self (Py.strip line) = Some (i, book) ->
  0 < Book.available_copies book ->
  let after := fst (Library.issue_book self line now1 now2) in
  snd (Library.issue_book self line now1 now2)
  = Library.Issued (Book.title book) (now1 + 14 * Library.DAY)
  /\ Library.books after !! i
     = Some (Book.set_available book (Book.available_copies book - 1))
  /\ Library.issued_books after !! Book.book_id book
     = Some (now2, now1 + 14 * Library.DAY)
  /\ Library._find_book after (Py.strip line)
     = Some (i, Book.set_available book (Book.available_copies book - 1)).
Proof.
  intros Hf Hpos after. subst after.
  rewrite (issue_success self line now1 now2 i book Hf Hpos). cbn [fst snd].
  split; [done|]. split; [|split].
  - apply list_lookup_insert_eq. eapply lookup_lt_Some.
    by eapply find_book_lookup.
  - apply lookup_insert_eq.
  - by apply (find_book_set_book self _ i book).
Qed.

Lemma issue_available_witness :
  Library.issued_books (fst (Library.issue_book Examples.lent (lit "dune") 50 51))
    !! lit "1000"
  = Some (51, 50 + 14 * Library.DAY).
Proof.
  apply (issue_available Examples.lent (lit "dune") 50 51 0%nat
           (Book.set_available Examples.dune 2)).
  - reflexivity.
  - simpl. lia.
Defined.

(** When the query resolves to a book without a loan entry, [return_book]
    reports that the id was not recorded as issued, leaves the loan entries
    alone, and still adds a copy when fewer copies are available than owned
    (it tells so); otherwise the book is as it was. *)
Theorem return_without_loan (self : Library.t) (line : pystr) (now : Z)
    (i : nat) (book : Book.t) :
  Library._find_book self (Py.strip line) = Some (i, book) ->
  Library.issued_books self !! Book.book_id book = None ->
  let after := fst (Library.return_book self line now) in
  let repaired :=
    bool_decide (Book.available_copies book < Book.total_copies book) in
  snd (Library.return_book self line now)
  = Library.NotRecordedAsIssued (Book.book_id book) repaired
  /\ Library.issued_books after = Library.issued_books self
  /\ Library.books after !! i
     = Some (if repaired
             then Book.set_available book (Book.available_copies book + 1)
             else book).
Proof.
  intros Hf Hl after repaired. subst after repaired.
  rewrite (return_no_loan self line now i book Hf Hl).
  pose proof (find_book_lookup _ _ _ _ Hf) as Hi.
  destruct (Z.ltb_spec (Book.available_copies book) (Book.total_copies book)).
  - rewrite bool_decide_true by done. cbn [fst snd].
    split; [done|]. split; [done|].
    apply list_lookup_insert_eq. by eapply lookup_lt_Some.
  - rewrite bool_decide_false by lia. done.
Qed.

Lemma return_without_loan_witness :
  snd (Library.return_book (Library.mk [Examples.dune_out] ∅) (lit "dune") 0)
  = Library.NotRecordedAsIssued (lit "1000") true.
Proof.
  apply (return_without_loan (Library.mk [Examples.dune_out] ∅) (lit "dune") 0
           0%nat Examples.dune_out); reflexivity.
Defined.

(** A book issued twice and returned twice under the same query, two copies
    or more being available at first: the second issue writes over the loan
    entry of the first, the first return removes the entry, the second return
    is reported as not recorded as issued and adds the copy all the same; in
    the end the Records are as at first. *)
Theorem two_issues_two_returns (self : Library.t) (line : pystr)
    (now1 now2 now3 now4 now5 now6 : Z) (i : nat) (book : Book.t) :
  Library._find_book self (Py.strip line) = Some (i, book) ->
  1 < Book.available_copies book <= Book.total_copies book ->
  let s1 := fst (Library.issue_book self line now1 now2) in
  let s2 := fst (Library.issue_book s1 line now3 now4) in
  let r3 := Library.return_book s2 line now5 in
  let r4 := Library.return_book (fst r3) line now6 in
  Library.issued_books s2 !! Book.book_id book
  = Some (now4, now3 + 14 * Library.DAY)
  /\ Library.issued_books (fst r3) !! Book.book_id book = None
  /\ snd r4 = Library.NotRecordedAsIssued (Book.book_id book) true
  /\ Library.books (fst r4) = Library.books self
  /\ Library.issued_books (fst r4)
     = delete (Book.book_id book) (Library.issued_books self).
Proof.
  intros Hf [Hpos Hle] s1 s2 r3 r4. subst s1 s2 r3 r4.
  pose proof (find_book_lookup _ _ _ _ Hf) as Hi.
  destruct book as [bi bt ba n a]. cbn in Hpos, Hle |- *.
  rewrite (issue_success self line now1 now2 i _ Hf) by (cbn; lia).
  cbn. set (s1 := Library.mk _ _).
  assert (Hf1 : Library._find_book s1 (Py.strip line)
                = Some (i, Book.mk bi bt ba n (a - 1)))
    by (by apply (find_book_set_book self _ i _ _ Hf)).
  rewrite (issue_success s1 line now3 now4 i _ Hf1) by (cbn; lia).
  cbn. set (s2 := Library.mk _ _).
  assert (Hf2 : Library._find_book s2 (Py.strip line)
                = Some (i, Book.mk bi bt ba n (a - 1 - 1)))
    by (by apply (find_book_set_book s1 _ i _ _ Hf1)).
  split; [apply lookup_insert_eq|].
  rewrite (return_with_loan s2 line now5 i _ now4 (now3 + 14 * Library.DAY) Hf2);
    [|apply lookup_insert_eq | cbn; lia].
  cbn. split; [apply lookup_delete_eq|].
  set (s3 := Library.mk _ _).
  assert (Hf3 : Library._find_book s3 (Py.strip line)
                = Some (i, Book.mk bi bt ba n (a - 1 - 1 + 1)))
    by (by apply (find_book_set_book s2 _ i _ _ Hf2)).
  rewrite (return_no_loan s3 line now6 i _ Hf3) by apply lookup_delete_eq.
  cbn. destruct (Z.ltb_spec (a - 1 - 1 + 1) n); [|lia].
  cbn. split; [done|]. split.
  - rewrite !list_insert_insert_eq.
    replace (a - 1 - 1 + 1 + 1) with a by lia. by apply list_insert_id.
  - by rewrite !delete_insert_eq.
Qed.

Lemma two_issues_two_returns_witness :
  let s1 := fst (Library.issue_book Examples.one_book (lit "dune") 0 0) in
  let s2 := fst (Library.issue_book s1 (lit "dune") 1 1) in
  let r3 := Library.return_book s2 (lit "dune") 2 in
  snd (Library.return_book (fst r3) (lit "dune") 3)
  = Library.NotRecordedAsIssued (lit "1000") true.
Proof.
  apply (two_issues_two_returns Examples.one_book (lit "dune") 0 0 1 1 2 3
           0%nat Examples.dune).
  - reflexivity.
  - simpl. lia.
Defined.

Lemma read_quantity_skips bad : forall lines,
  Forall invalid_quantity bad ->
  Library.read_quantity (bad ++ lines) = Library.read_quantity lines.
Proof.
  induction bad as [|l bad IH]; intros lines Hbad; [done|].
  apply Forall_cons in Hbad as [Hl Hbad].
  cbn [app Library.read_quantity]. unfold Py.int. unfold invalid_quantity in Hl.
  destruct (Py.int_of_str l) as [n|]; unfold raise, ret.
  - destruct (Z.leb_spec n 0); [by apply IH | lia].
  - by apply IH.
Qed.

(** The quantity loop of [add_book] passes over the answers that are not
    numbers or not positive, and takes the first positive number; when every
    answer is turned down and the input ends, [EOFError] is raised. *)
Theorem read_quantity_first_valid (bad : list pystr) :
  Forall invalid_quantity bad ->
  Library.read_quantity bad = raise EOFError
  /\ forall good n rest,
       Py.int_of_str good = Some n -> 0 < n ->
       Library.read_quantity (bad ++ good :: rest) = ret n.
Proof.
  intros Hbad. split.
  - rewrite <- (app_nil_r bad). by rewrite read_quantity_skips.
  - intros good n rest Hg Hn. rewrite read_quantity_skips by done.
    cbn [Library.read_quantity]. unfold Py.int. rewrite Hg. unfold ret.
    destruct (Z.leb_spec n 0); [lia | done].
Qed.

Lemma read_quantity_first_valid_witness :
  Library.read_quantity [lit "three"; lit "0"; lit "-2"; lit " 3 "; lit "7"]
  = ret 3.
Proof.
  apply (read_quantity_first_valid [lit "three"; lit "0"; lit "-2"]).
  - repeat constructor; vm_compute; try done; discriminate.
  - reflexivity.
  - lia.
Defined.

Lemma add_book_result self draws tl al ql self' new_id :
  Library.add_book self draws tl al ql = Some (inr (self', new_id)) ->
  (new_id ∉ map Book.book_id (Library.books self))
  /\ exists n,
       0 < n
       /\ Library.read_quantity ql = ret n
       /\ self' = Library.mk
                    (Library.books self
                     ++ [Book.mk new_id (Py.strip tl) (Py.strip al) n n])
                    (Library.issued_books self).
Proof.
  unfold Library.add_book, Library._get_next_id.
  destruct (Library.next_id_loop _ draws) as [[i rest]|] eqn:Hid; [|done].
  apply next_id_loop_fresh in Hid as [Hfresh _].
  assert (Hnew : i ∉ map Book.book_id (Library.books self)).
  { intros Hin. apply Hfresh. unfold Library.existing_ids.
    by apply elem_of_list_to_set. }
  destruct (Library.read_quantity ql) as [e|n] eqn:Hq; [done|].
  unfold Book.__init__. cbn. intros [= <- <-].
  split; [done|]. exists n. split; [|done].
  clear -Hq. revert Hq. induction ql as [|l ls IH];
    cbn [Library.read_quantity]; [done|].
  destruct (Py.int (PyStr l)) as [[]|m]; try done.
  destruct (Z.leb_spec m 0); [done|]. intros [= <-]. lia.
Qed.

(** When [add_book] returns, the id it gave is the id of no book that was in
    the catalog, so ids that were all different stay so; the loan entries are
    as they were; and the catalog is the former one followed by one Record
    with the stripped title and author and the quantity read, for the total
    and for the available copies. *)
Theorem add_book_new_record (self : Library.t) (draws : list Z)
    (title_line author_line : pystr) (quantity_lines : list pystr)
    (self' : Library.t) (new_id : pystr) :
  Library.add_book self draws title_line author_line quantity_lines
  = Some (inr (self', new_id)) ->
  (new_id ∉ map Book.book_id (Library.books self))
  /\ (NoDup (map Book.book_id (Library.books self)) ->
      NoDup (map Book.book_id (Library.books self')))
  /\ Library.issued_books self' = Library.issued_books self
  /\ exists n,
       0 < n
       /\ Library.read_quantity quantity_lines = ret n
       /\ Library.books self'
          = Library.books self
            ++ [Book.mk new_id (Py.strip title_line) (Py.strip author_line) n n].
Proof.
  intros Ha. apply add_book_result in Ha as (Hnew & n & Hpos & Hq & ->).
  cbn. split; [done|]. split; [|split; [done|by exists n]].
  intros Hnd. rewrite map_app. cbn. apply NoDup_app. split; [done|].
  split; [|apply NoDup_singleton].
  intros x Hx Hx'. apply list_elem_of_singleton in Hx'. by subst x.
Qed.

Lemma add_book_new_record_witness :
  lit "1001" ∉ map Book.book_id (Library.books Examples.one_book).
Proof.
  apply (add_book_new_record Examples.one_book [0; 1] (lit " Emma ")
           (lit "Austen") [lit "x"; lit "2"]
           (Library.mk [Examples.dune;
                        Book.mk (lit "1001") (lit "Emma") (lit "Austen") 2 2] ∅)
           (lit "1001")).
  vm_compute. reflexivity.
Defined.

(** What [_load_books] makes of a row, by the number of its fields.  Fewer
    than four: the row is skipped.  Four (the last column missing): the row is
    skipped when the total is a number, and kept with both counts zero when it
    is not.  Five or more: the row is kept, with the two counts when both are
    numbers and with both zero otherwise; fields past the fifth are ignored. *)
Theorem load_row_by_fields (i t a tc ac : pystr) (more : list pystr) :
  Library.load_row [] = None
  /\ Library.load_row [i] = None
  /\ Library.load_row [i; t] = None
  /\ Library.load_row [i; t; a] = None
  /\ Library.load_row [i; t; a; tc]
     = match Py.int_of_str tc with
       | Some _ => None
       | None => Some (Book.mk i t a 0 0)
       end
  /\ Library.load_row (i :: t :: a :: tc :: ac :: more)
     = match Py.int_of_str tc, Py.int_of_str ac with
       | Some n, Some m => Some (Book.mk i t a n m)
       | _, _ => Some (Book.mk i t a 0 0)
       end.
Proof.
  unfold Library.load_row, Library.book_of_row, Book.__init__, Csv.row_get, Py.int.
  cbn. repeat split.
  - by destruct (Py.int_of_str tc).
  - by destruct (Py.int_of_str tc), (Py.int_of_str ac).
Qed.

(** The first line of a file is passed over, whatever it holds.  For a file
    that holds the lines of a first row and of [rows] (rows of two fields or
    more, each within the field size limit), [_load_books] returns, in their
    order, the Records that the rows after the first construct, a row whose
    construction raises being skipped, and leaves the file as it is; so a file
    that lacks the header loses its first book.  A file that is missing is
    created with the header line alone, and no Record is loaded. *)
Theorem load_books_rows (first : list pystr) (rows : list (list pystr)) :
  Forall row_ok (first :: rows) ->
  Library._load_books (Some (file_of_rows (first :: rows)))
  = (omap Library.load_row rows, Some (file_of_rows (first :: rows)))
  /\ Library._load_books None = ([], Some (file_of_rows [FIELDNAMES])).
Proof.
  intros Hok. split; [by apply load_rows_file|].
  unfold Library._load_books, file_of_rows, row_line, Library.header.
  cbn [map concat]. by rewrite app_nil_r.
Qed.

Lemma load_books_rows_witness :
  fst (Library._load_books
         (Some (file_of_rows
                  [[lit "1000"; lit "Dune"; lit "Herbert"; lit "3"; lit "2"];
                   [lit "1001"; lit "Emma"; lit "Austen"; lit "2"; lit "2"]])))
  = omap Library.load_row
      [[lit "1001"; lit "Emma"; lit "Austen"; lit "2"; lit "2"]].
Proof.
  assert (Hok : Forall row_ok
                  [[lit "1000"; lit "Dune"; lit "Herbert"; lit "3"; lit "2"];
                   [lit "1001"; lit "Emma"; lit "Austen"; lit "2"; lit "2"]]).
  { repeat constructor; unfold fits, Csv.field_size_limit; cbn; lia. }
  destruct (load_books_rows _ _ Hok) as [Hload _].
  rewrite Hload. reflexivity.
Defined.

(** The round trip of saving and loading, for the proofs about sessions. *)
Lemma load_saved self :
  Forall storable (Library.books self) ->
  Library._load_books (Some (Library.save_books self))
  = (Library.books self, Some (Library.save_books self)).
Proof.
  intros Hst. unfold Library._load_books, DictReader.
  rewrite reader_save_books by done. cbn [fst].
  rewrite filter_cons_True by done. by rewrite filter_rows, omap_load_rows.
Qed.

Lemma quantity_rest_length lines :
  (length (Main.quantity_rest lines) <= length lines)%nat.
Proof.
  induction lines as [|l lines IH]; cbn [Main.quantity_rest length]; [lia|].
  destruct (Py.int (PyStr l)) as [[]|n]; try lia.
  destruct (n <=? 0); lia.
Qed.

Lemma read_quantity_error lines e :
  Library.read_quantity lines = inl e -> e = EOFError.
Proof.
  induction lines as [|l lines IH]; cbn [Library.read_quantity].
  - by intros [= <-].
  - unfold Py.int. destruct (Py.int_of_str l) as [n|]; unfold ret, raise; [|done].
    by destruct (n <=? 0).
Qed.

Lemma add_book_error self draws tl al ql e :
  Library.add_book self draws tl al ql = Some (inl e) -> e = EOFError.
Proof.
  unfold Library.add_book.
  destruct (Library._get_next_id self draws) as [[i rest]|]; [|done].
  destruct (Library.read_quantity ql) as [e'|n] eqn:Hq.
  - intros [= <-]. by eapply read_quantity_error.
  - unfold Book.__init__. cbn. done.
Qed.

Section Session.

Variable clock : nat -> Z.

Lemma loop_fuel fuel : forall library w file,
  (length (Main.stdin w) < fuel)%nat ->
  Main.loop fuel clock library w file <> Main.OutOfFuel.
Proof.
  induction fuel as [|fuel IH]; intros library w file Hlen; [lia|].
  cbn [Main.loop]. destruct (Main.stdin w) as [|line rest] eqn:Hin; [done|].
  cbn [length] in Hlen.
  repeat case_bool_decide.
  - destruct (Library._get_next_id library (Main.randoms w)) as [[i r']|]; [|done].
    destruct rest as [|tl [|al ql]]; try done.
    destruct (Library.add_book _ _ _ _ _) as [[e|[lib' i']]|]; try done.
    apply IH. cbn. pose proof (quantity_rest_length ql). cbn in Hlen. lia.
  - apply IH. cbn. lia.
  - destruct rest as [|q rest']; [done|]. apply IH. cbn in *. lia.
  - destruct rest as [|q rest']; [done|].
    destruct (Library.issue_book _ _ _ _). apply IH. cbn in *. lia.
  - destruct rest as [|q rest']; [done|].
    destruct (Library.return_book _ _ _). apply IH. cbn in *. lia.
  - done.
  - apply IH. cbn. lia.
Qed.

Lemma loop_file fuel : forall library w file,
  match Main.loop fuel clock library w file with
  | Main.Exited library' file' => file' = Some (Library.save_books library')
  | Main.Raised e _ file' => file' = file /\ e = EOFError
  | Main.Drawing _ file' => file' = file
  | Main.OutOfFuel => True
  end.
Proof.
  induction fuel as [|fuel IH]; intros library w file; [done|].
  cbn [Main.loop]. destruct (Main.stdin w) as [|line rest]; [done|].
  repeat case_bool_decide.
  - destruct (Library._get_next_id library (Main.randoms w)) as [[i r']|]; [|done].
    destruct rest as [|tl [|al ql]]; try done.
    destruct (Library.add_book _ _ _ _ _) as [[e|[lib' i']]|] eqn:Hadd; try done.
    + split; [done|]. by eapply add_book_error.
    + apply IH.
  - apply IH.
  - destruct rest as [|q rest']; [done|]. apply IH.
  - destruct rest as [|q rest']; [done|].
    destruct (Library.issue_book _ _ _ _). apply IH.
  - destruct rest as [|q rest']; [done|].
    destruct (Library.return_book _ _ _). apply IH.
  - done.
  - apply IH.
Qed.

(** A property of the catalog that the three operations keep is kept by the
    whole loop. *)
Lemma loop_keeps (P : Library.t -> Prop) :
  (forall self draws tl al ql self' i,
     Library.add_book self draws tl al ql = Some (inr (self', i)) ->
     P self -> P self') ->
  (forall self line now1 now2,
     P self -> P (fst (Library.issue_book self line now1 now2))) ->
  (forall self line now,
     P self -> P (fst (Library.return_book self line now))) ->
  forall fuel library w file library',
    P library ->
    Main.final_library (Main.loop fuel clock library w file) = Some library' ->
    P library'.
Proof.
  intros Hadd Hissue Hreturn.
  induction fuel as [|fuel IH]; intros library w file library' HP; [done|].
  cbn [Main.loop]. destruct (Main.stdin w) as [|line rest];
    [by intros [= <-]|].
  repeat case_bool_decide.
  - destruct (Library._get_next_id library (Main.randoms w)) as [[i r']|];
      [|by intros [= <-]].
    destruct rest as [|tl [|al ql]]; try by intros [= <-].
    destruct (Library.add_book _ _ _ _ _) as [[e|[lib' i']]|] eqn:Ha;
      try by intros [= <-].
    apply IH. by eapply Hadd.
  - by apply IH.
  - destruct rest as [|q rest']; [by intros [= <-]|]. by apply IH.
  - destruct rest as [|q rest']; [by intros [= <-]|].
    pose proof (Hissue library q (clock (Main.ticks w))
                  (clock (S (Main.ticks w))) HP) as HP'.
    destruct (Library.issue_book _ _ _ _). by apply IH.
  - destruct rest as [|q rest']; [by intros [= <-]|].
    pose proof (Hreturn library q (clock (Main.ticks w)) HP) as HP'.
    destruct (Library.return_book _ _ _). by apply IH.
  - by intros [= <-].
  - by apply IH.
Qed.

End Session.

Lemma ids_insert (l : list Book.t) : forall i b b',
  l !! i = Some b -> frame b' = frame b ->
  map Book.book_id (<[i := b']> l) = map Book.book_id l.
Proof.
  induction l as [|x l IH]; intros [|i] b b' Hl Hf; simpl in *; try done.
  - inversion Hl; subst. unfold frame in Hf. by inversion Hf.
  - f_equal. by apply (IH i b).
Qed.

Lemma well_kept_add self draws tl al ql self' i :
  Library.add_book self draws tl al ql = Some (inr (self', i)) ->
  well_kept self -> well_kept self'.
Proof.
  intros Ha (Hc & Hn & Hl).
  apply add_book_result in Ha as (Hnew & n & Hpos & _ & ->).
  unfold well_kept. cbn. rewrite map_app. cbn. split; [|split].
  - apply Forall_app. split; [done|]. constructor; [|done].
    unfold Book.copies_ok. cbn. lia.
  - apply NoDup_app. split; [done|]. split; [|apply NoDup_singleton].
    intros x Hx Hx'. apply list_elem_of_singleton in Hx'. by subst x.
  - intros k Hk. apply elem_of_app. left. by apply Hl.
Qed.

Lemma well_kept_issue self line now1 now2 :
  well_kept self -> well_kept (fst (Library.issue_book self line now1 now2)).
Proof.
  intros (Hc & Hn & Hl).
  assert (Hids : map Book.book_id
                   (Library.books (fst (Library.issue_book self line now1 now2)))
                 = map Book.book_id (Library.books self)).
  { destruct (issue_book_books self line now1 now2) as [->|(i & b & Hf & ->)];
      [done|].
    apply (ids_insert _ i b); [by eapply find_book_lookup | apply check_out_frame]. }
  split; [|split].
  - destruct (issue_book_books self line now1 now2) as [->|(i & b & Hf & ->)];
      [done|].
    apply Forall_insert; [done|]. apply check_out_ok.
    eapply Forall_lookup_1; [exact Hc | by eapply find_book_lookup].
  - by rewrite Hids.
  - intros k Hk. rewrite Hids.
    destruct (issue_book_loans self line now1 now2 k) as [Heq|(i & b & Hf & ->)].
    + apply Hl. by rewrite <- Heq.
    + apply list_elem_of_fmap. exists b. split; [done|].
      eapply list_elem_of_lookup_2. by eapply find_book_lookup.
Qed.

Lemma well_kept_return self line now :
  well_kept self -> well_kept (fst (Library.return_book self line now)).
Proof.
  intros (Hc & Hn & Hl).
  assert (Hids : map Book.book_id
                   (Library.books (fst (Library.return_book self line now)))
                 = map Book.book_id (Library.books self)).
  { destruct (return_book_books self line now) as [->|(i & b & Hf & ->)];
      [done|].
    apply (ids_insert _ i b); [by eapply find_book_lookup | apply check_in_frame]. }
  split; [|split].
  - destruct (return_book_books self line now) as [->|(i & b & Hf & ->)];
      [done|].
    apply Forall_insert; [done|]. apply check_in_ok.
    eapply Forall_lookup_1; [exact Hc | by eapply find_book_lookup].
  - by rewrite Hids.
  - intros k Hk. rewrite Hids.
    destruct (return_book_loans self line now k) as [Heq|(i & b & Hf & ->)].
    + apply Hl. by rewrite <- Heq.
    + apply list_elem_of_fmap. exists b. split; [done|].
      eapply list_elem_of_lookup_2. by eapply find_book_lookup.
Qed.

(** When the books loaded from the file have their counts in range and ids
    all different, then at the end of a session of [main], however it ends,
    the catalog has its counts in range, ids all different, and loan entries
    only under ids of its books. *)
Theorem session_well_kept (fuel : nat) (clock : nat -> Z) (w : Main.world)
    (file : option pystr) (library : Library.t) :
  Forall Book.copies_ok (fst (Library._load_books file)) ->
  NoDup (map Book.book_id (fst (Library._load_books file))) ->
  Main.final_library (Main.main fuel clock w file) = Some library ->
  well_kept library.
Proof.
  intros Hc Hn. unfold Main.main, Library.__init__.
  destruct (Library._load_books file) as [books file'] eqn:Hload.
  cbn in Hc, Hn.
  apply (loop_keeps clock well_kept well_kept_add well_kept_issue
           well_kept_return).
  split; [done|]. split; [done|].
  intros k Hk. cbn in Hk. rewrite lookup_empty in Hk. by destruct Hk.
Qed.

Lemma session_well_kept_witness :
  well_kept (Library.mk [Examples.dune] ∅).
Proof.
  apply (session_well_kept 20 (fun k => Z.of_nat k) session None).
  - vm_compute. constructor.
  - vm_compute. constructor.
  - vm_compute. reflexivity.
Defined.

Lemma digit_val_range c d : Py.digit_val c = Some d -> 0 <= d <= 9.
Proof.
  unfold Py.digit_val.
  destruct (Z.leb_spec 48 (code c)), (Z.leb_spec (code c) 57); cbn; try done.
  intros [= <-]. lia.
Qed.

Lemma scan_digits_bound s : forall acc count us v count' rest,
  0 <= count -> 0 <= acc < 10 ^ count ->
  Py.scan_digits acc count us s = Some (v, count', rest) ->
  count <= count' /\ 0 <= v < 10 ^ count'.
Proof.
  induction s as [|c s IH]; intros acc count us v count' rest Hc Hacc;
    cbn [Py.scan_digits].
  - destruct us; [done|]. intros [= <- <- <-]. lia.
  - destruct (Py.is_underscore c).
    + destruct us; [done|]. by apply IH.
    + destruct (Py.digit_val c) as [d|] eqn:Hd.
      * apply digit_val_range in Hd. intros Hscan.
        apply IH in Hscan; [lia | lia |].
        rewrite Z.pow_add_r by lia. change (10 ^ 1) with 10.
        set (B := 10 ^ count) in *. lia.
      * destruct us; [done|]. intros [= <- <- <-]. lia.
Qed.

(** What [int] reads has 4300 digits at most. *)
Lemma int_of_str_ok s n : Py.int_of_str s = Some n -> Py.int_ok n.
Proof.
  unfold Py.int_of_str.
  set (s1 := Py.lstrip Py.isspace_int s).
  assert (Hgen : forall sign s2,
            (sign = 1 \/ sign = -1) ->
            match s2 with
            | c :: _ =>
                if Py.is_underscore c then None
                else
                  match Py.scan_digits 0 0 false s2 with
                  | Some (v, count, rest) =>
                      if (count =? 0) || (Py.int_max_str_digits <? count)
                      then None
                      else
                        match Py.lstrip Py.isspace_int rest with
                        | [] => Some (sign * v)
                        | _ :: _ => None
                        end
                  | None => None
                  end
            | [] => None
            end = Some n -> Py.int_ok n).
  { intros sign s2 Hsign. destruct s2 as [|c s2]; [done|].
    destruct (Py.is_underscore c); [done|].
    destruct (Py.scan_digits 0 0 false (c :: s2)) as [[[v count] rest]|] eqn:Hscan;
      [|done].
    apply scan_digits_bound in Hscan as [Hc Hv]; [|lia|cbn; lia].
    destruct (Z.eqb_spec count 0); [done|].
    destruct (Z.ltb_spec Py.int_max_str_digits count); [done|]. cbn [orb].
    destruct (Py.lstrip Py.isspace_int rest); [|done]. intros [= <-].
    unfold Py.int_ok.
    assert (Hpow : 10 ^ count <= 10 ^ Py.int_max_str_digits)
      by (apply Z.pow_le_mono_r; lia).
    set (B := 10 ^ count) in *. set (B' := 10 ^ Py.int_max_str_digits) in *.
    destruct Hsign as [-> | ->]; lia. }
  destruct s1 as [|c r].
  - apply (Hgen 1 []). by left.
  - destruct (code c =? 43); [apply (Hgen 1 r); by left|].
    destruct (code c =? 45); [apply (Hgen (-1) r); by right|].
    apply (Hgen 1 (c :: r)). by left.
Qed.

Lemma int_ok_zero : Py.int_ok 0.
Proof. unfold Py.int_ok. cbn [Z.abs]. apply Z.pow_pos_nonneg; done. Qed.

Lemma load_row_converts row b :
  Library.load_row row = Some b -> counts_convert b.
Proof.
  unfold Library.load_row, Library.book_of_row, Book.__init__, Csv.row_get, Py.int,
    counts_convert.
  destruct row as [|i [|t [|a [|tc [|ac more]]]]]; cbn; try done.
  - destruct (Py.int_of_str tc) as [n|]; [done|].
    intros [= <-]. cbn. split; apply int_ok_zero.
  - destruct (Py.int_of_str tc) as [n|] eqn:Ht.
    + destruct (Py.int_of_str ac) as [m|] eqn:Ha; intros [= <-]; cbn.
      * split; by eapply int_of_str_ok.
      * split; apply int_ok_zero.
    + intros [= <-]. cbn. split; apply int_ok_zero.
Qed.

Lemma loaded_convert file :
  Forall counts_convert (fst (Library._load_books file)).
Proof.
  unfold Library._load_books. destruct file as [text|]; [|constructor].
  destruct (fst (DictReader (File.readlines text))) as [|hd rows]; [constructor|].
  cbn [fst]. apply Forall_forall. intros b (row & _ & Hb)%list_elem_of_omap.
  by eapply load_row_converts.
Qed.

Lemma check_out_converts b :
  counts_convert b -> counts_convert (snd (Book.check_out b)).
Proof.
  unfold counts_convert, Py.int_ok, Book.check_out.
  set (B := 10 ^ _). intros [Ht Ha].
  destruct (Z.ltb_spec 0 (Book.available_copies b)); cbn; [|done]. lia.
Qed.

Lemma check_in_converts b :
  counts_convert b -> counts_convert (snd (Book.check_in b)).
Proof.
  unfold counts_convert, Py.int_ok, Book.check_in.
  set (B := 10 ^ _). intros [Ht Ha].
  destruct (Z.ltb_spec (Book.available_copies b) (Book.total_copies b)); cbn;
    [|done]. lia.
Qed.

Lemma read_quantity_converts lines n :
  Library.read_quantity lines = inr n -> Py.int_ok n.
Proof.
  induction lines as [|l lines IH]; cbn [Library.read_quantity]; [done|].
  unfold Py.int. destruct (Py.int_of_str l) as [m|] eqn:Hl; unfold ret, raise;
    [|done].
  destruct (m <=? 0); [done|]. intros [= <-]. by eapply int_of_str_ok.
Qed.

Lemma converts_add self draws tl al ql self' i :
  Library.add_book self draws tl al ql = Some (inr (self', i)) ->
  Forall counts_convert (Library.books self) ->
  Forall counts_convert (Library.books self').
Proof.
  intros Ha Hall.
  apply add_book_result in Ha as (_ & n & _ & Hq & ->). cbn.
  apply Forall_app. split; [done|]. constructor; [|done].
  apply read_quantity_converts in Hq. by split.
Qed.

Lemma converts_issue self line now1 now2 :
  Forall counts_convert (Library.books self) ->
  Forall counts_convert
    (Library.books (fst (Library.issue_book self line now1 now2))).
Proof.
  intros Hall.
  destruct (issue_book_books self line now1 now2) as [->|(i & b & Hf & ->)];
    [done|].
  apply Forall_insert; [done|]. apply check_out_converts.
  eapply Forall_lookup_1; [exact Hall | by eapply find_book_lookup].
Qed.

Lemma converts_return self line now :
  Forall counts_convert (Library.books self) ->
  Forall counts_convert
    (Library.books (fst (Library.return_book self line now))).
Proof.
  intros Hall.
  destruct (return_book_books self line now) as [->|(i & b & Hf & ->)];
    [done|].
  apply Forall_insert; [done|]. apply check_in_converts.
  eapply Forall_lookup_1; [exact Hall | by eapply find_book_lookup].
Qed.

(** A session of [main] that ends through choice 6 leaves the file with the
    catalog saved; when the id, title and author of every Record are within
    the field size limit of the reader (131072 characters), a new
    [Library()] on that file has the same Records and no loan entry.  A
    session that ends otherwise can only have been ended by [EOFError] (or be
    drawing ids still), and leaves the file as loading left it.  A session
    allowed more turns than the input has lines does end. *)
Theorem session_file (fuel : nat) (clock : nat -> Z) (w : Main.world)
    (file : option pystr) :
  match Main.main fuel clock w file with
  | Main.Exited library file' =>
      file' = Some (Library.save_books library)
      /\ (Forall texts_fit (Library.books library) ->
          Library.__init__ file'
          = (Library.mk (Library.books library) ∅, file'))
  | Main.Raised e _ file' =>
      e = EOFError /\ file' = snd (Library._load_books file)
  | Main.Drawing _ file' => file' = snd (Library._load_books file)
  | Main.OutOfFuel => (fuel <= length (Main.stdin w))%nat
  end.
Proof.
  unfold Main.main, Library.__init__ at 1.
  pose proof (loaded_convert file) as Hconv.
  destruct (Library._load_books file) as [books file0] eqn:Hload. cbn [snd].
  pose proof (loop_file clock fuel (Library.mk books ∅) w file0) as Hfile.
  pose proof (loop_fuel clock fuel (Library.mk books ∅) w file0) as Hfuel.
  pose proof (loop_keeps clock
                (fun l => Forall counts_convert (Library.books l))
                converts_add converts_issue converts_return
                fuel (Library.mk books ∅) w file0) as Hkeep.
  destruct (Main.loop fuel clock _ w file0) as [lib f|e lib f|lib f|].
  - subst f. split; [done|]. intros Htexts. unfold Library.__init__.
    rewrite load_saved; [done|].
    specialize (Hkeep lib Hconv eq_refl).
    apply Forall_forall. intros b Hb.
    rewrite Forall_forall in Htexts, Hkeep.
    destruct (Htexts b Hb) as (Hi & Ht & Ha), (Hkeep b Hb) as [Hn Hm].
    by repeat split.
  - by destruct Hfile.
  - done.
  - destruct (decide (fuel <= length (Main.stdin w))%nat); [done|].
    exfalso. apply Hfuel; [lia | done].
Qed.

Lemma format_left_length s width :
  length (Py.format_left s width) = Nat.max width (length s).
Proof. unfold Py.format_left. rewrite length_app, repeat_length. lia. Qed.

Lemma short_count n : 0 <= n <= 999 -> (length (Py.str_of_int n) <= 3)%nat.
Proof.
  intros Hn.
  assert (Hall : forallb (fun v => Nat.leb (length (Py.str_of_int v)) 3)
                   (seqZ 0 1000) = true) by (vm_compute; reflexivity).
  rewrite forallb_forall in Hall.
  apply Nat.leb_le, Hall, list_elem_of_In, elem_of_seqZ. lia.
Qed.

(** The line [__str__] gives for a book has 110 characters or more, and 110
    exactly when the id has at most 5 characters, the title 30, the author
    20, and both counts are between 0 and 999. *)
Theorem str_width (b : Book.t) :
  (110 <= length (Book.__str__ b))%nat
  /\ ((length (Book.book_id b) <= 5)%nat ->
      (length (Book.title b) <= 30)%nat ->
      (length (Book.author b) <= 20)%nat ->
      0 <= Book.total_copies b <= 999 ->
      0 <= Book.available_copies b <= 999 ->
      length (Book.__str__ b) = 110%nat).
Proof.
  unfold Book.__str__. rewrite !length_app, !format_left_length. cbn [length lit
    list_ascii_of_string Py.str].
  split; [lia|]. intros Hi Ht Ha Hn Hm.
  apply short_count in Hn, Hm. lia.
Qed.

Lemma check_out_times_available n : forall b,
  Z.of_nat n <= Book.available_copies b ->
  check_out_times n b
  = Book.set_available b (Book.available_copies b - Z.of_nat n).
Proof.
  induction n as [|n IH]; intros b Hn.
  - cbn. destruct b. unfold Book.set_available. cbn. f_equal. lia.
  - change (check_out_times (S n) b)
      with (snd (Book.check_out (check_out_times n b))).
    rewrite IH by lia. unfold Book.check_out. cbn.
    destruct (Z.ltb_spec 0 (Book.available_copies b - Z.of_nat n)); [|lia].
    cbn. unfold Book.set_available. cbn. f_equal. lia.
Qed.

(** A Record with [n >= 0] copies available can be checked out [n] times in
    a row, each time with success; it then has no copy available, and the
    next [check_out] fails and leaves it so. *)
Theorem check_out_exhausts (b : Book.t) :
  0 <= Book.available_copies b ->
  let n := Z.to_nat (Book.available_copies b) in
  (forall k, (k < n)%nat ->
     fst (Book.check_out (check_out_times k b)) = true)
  /\ check_out_times n b = Book.set_available b 0
  /\ Book.check_out (check_out_times n b) = (false, Book.set_available b 0).
Proof.
  intros Ha n. subst n. split; [|split].
  - intros k Hk. rewrite check_out_times_available by lia.
    unfold Book.check_out. cbn.
    by destruct (Z.ltb_spec 0 (Book.available_copies b - Z.of_nat k)); [|lia].
  - rewrite check_out_times_available by lia. f_equal. lia.
  - rewrite check_out_times_available by lia.
    replace (Book.available_copies b - _) with 0 by lia. reflexivity.
Qed.

Lemma check_out_exhausts_witness :
  check_out_times 3 Examples.dune = Examples.dune_out.
Proof.
  apply (check_out_exhausts Examples.dune). simpl. lia.
Defined.

(** A Record with fewer copies available than owned, and none missing from
    the count, that is checked in and then checked out is as it was: both
    calls succeed. *)
Theorem check_in_check_out_restores (b : Book.t) :
  0 <= Book.available_copies b < Book.total_copies b ->
  fst (Book.check_in b) = true
  /\ Book.check_out (snd (Book.check_in b)) = (true, b).
Proof.
  intros [Hlo Hhi]. unfold Book.check_in.
  destruct (Z.ltb_spec (Book.available_copies b) (Book.total_copies b)); [|lia].
  split; [done|]. unfold Book.check_out. cbn.
  destruct (Z.ltb_spec 0 (Book.available_copies b + 1)); [|lia].
  f_equal. destruct b. unfold Book.set_available. cbn. f_equal. lia.
Qed.

Lemma check_in_check_out_restores_witness :
  Book.check_out (snd (Book.check_in Examples.dune_out)) = (true, Examples.dune_out).
Proof.
  apply (check_in_check_out_restores Examples.dune_out). simpl. lia.
Defined.

(** Whatever the file and whatever is typed, every count of the catalog has
    4300 digits at most at the end of a session of [main], however it ends:
    the counts loaded and the quantities typed come out of [int], and
    [check_out] and [check_in] stay within them.  So [str] converts every
    count that [save_books] and [display_all_books] write. *)
Theorem session_counts_convert (fuel : nat) (clock : nat -> Z) (w : Main.world)
    (file : option pystr) (library : Library.t) :
  Main.final_library (Main.main fuel clock w file) = Some library ->
  Forall counts_convert (Library.books library).
Proof.
  unfold Main.main, Library.__init__.
  pose proof (loaded_convert file) as Hload.
  destruct (Library._load_books file) as [books file'].
  apply (loop_keeps clock (fun l => Forall counts_convert (Library.books l))
           converts_add converts_issue converts_return).
  exact Hload.
Qed.

Lemma session_counts_convert_witness :
  Forall counts_convert [Examples.dune].
Proof.
  apply (session_counts_convert 20 (fun k => Z.of_nat k) session None
           (Library.mk [Examples.dune] ∅)).
  vm_compute. reflexivity.
Defined.
